(** * LIWC empathy analysis: the dependency-free ANOVA engine and the
      derived empathy score, embedded from the Python sources.

    Sources embedded here:
    - [src/LIWC/liwc_Anova_results_table.py]: [load_data],
      [calculate_f_statistic], [calculate_eta_squared], [analyze_data],
      [save_csv_table], [create_significance_summary],
      [format_table_for_display];
    - [src/LIWC/empathy_score.py]: [calculate_new_empathy_score];
    - [src/LIWC/run_all_analysis.py]: [run_script], [main].

    Numbers.  The scripts compute on Python floats, and two models are
    given.  In the exact model a float is idealised as a rational [Q] and
    every operation is the exact one; the decimal literals of the source
    ([1.5], [0.001], ...) are the rationals they denote.  It is the model
    of the properties that hold in exact arithmetic, and of the properties
    that rounding does not affect, on values that are finite and within
    [value_bound], where no operation of the code overflows.  The binary64
    model, module [F64], computes on primitive floats as the interpreter
    does; it shows what rounding and overflow do to the other properties.
    Python integers ([len], degrees of freedom) are [Z].

    Errors.  Python code raises; the embedding returns a [result], either
    [Return v] or [Raise e] with the exception class that the interpreter
    would raise, so that "never raises" is a statement one can prove. *)

From Stdlib Require Import List ZArith QArith Qround Lqa Lia Bool.
From Stdlib Require Import String Ascii Permutation Setoid Morphisms.
From Stdlib Require Import DecimalString Floats Qabs.
Import ListNotations.

Open Scope Q_scope.

(** Decimal literals of floats denote the nearest binary64 value, as in
    Python. *)
Set Warnings "-inexact-float".

(** ** Python exceptions and the error monad *)

Inductive exn : Set :=
| ValueError
| KeyError
| TypeError
| ZeroDivisionError
| StatisticsError
| OverflowError
| OSError.

Inductive result (A : Type) : Type :=
| Return (a : A)
| Raise (e : exn).

Arguments Return {A} a.
Arguments Raise {A} e.

Definition bind {A B : Type} (c : result A) (k : A -> result B) : result B :=
  match c with
  | Return a => k a
  | Raise e => Raise e
  end.

Declare Scope py_scope.
Delimit Scope py_scope with py.
Notation "x <- c ;; k" := (bind c (fun x => k))
  (at level 61, c at next level, right associativity) : py_scope.
Notation "' pat <- c ;; k" := (bind c (fun x => match x with pat => k end))
  (at level 61, pat pattern, c at next level, right associativity) : py_scope.
Open Scope py_scope.

(** A [for] loop whose body may raise: the state is threaded through the
    elements from left to right and the first exception aborts the loop. *)
Fixpoint for_each {S A : Type} (body : S -> A -> result S) (l : list A) (st : S)
  : result S :=
  match l with
  | [] => Return st
  | a :: l' => st' <- body st a ;; for_each body l' st'
  end.

(** ** Python built-ins used by the scripts *)

Module Py.

(** [len(l)] *)
Definition len {A : Type} (l : list A) : Z := Z.of_nat (List.length l).

(** [sum(l)]: starts from [0] and adds from left to right. *)
Definition sum (l : list Q) : Q := fold_left Qplus l 0.

(** [x < y] on floats, as a boolean. *)
Definition ltb (x y : Q) : bool :=
  (Qnum x * QDen y <? Qnum y * QDen x)%Z.

(** [x >= y] on floats. *)
Definition geb (x y : Q) : bool := Qle_bool y x.

(** [x / y]: true division, [ZeroDivisionError] on a zero divisor. *)
Definition truediv (x y : Q) : result Q :=
  if Qeq_bool y 0 then Raise ZeroDivisionError else Return (x / y).

(** [statistics.mean(l)]: [StatisticsError] on an empty sequence,
    otherwise the exact sum divided by the number of points. *)
Definition mean (l : list Q) : result Q :=
  match l with
  | [] => Raise StatisticsError
  | _ :: _ => Return (sum l / inject_Z (len l))
  end.

(** [statistics.variance(l)], the square of [statistics.stdev(l)]:
    [StatisticsError] below two points, otherwise the sum of squared
    deviations from the mean divided by [n - 1]. *)
Definition variance (l : list Q) : result Q :=
  if (len l <? 2)%Z then Raise StatisticsError
  else
    m <- mean l ;;
    Return (sum (map (fun x => (x - m) ^ 2) l) / inject_Z (len l - 1)).

End Py.

(** ** [calculate_f_statistic] (liwc_Anova_results_table.py, lines 27-83) *)

(** The three lists that the first loop fills, in step. *)
Record pooled : Type := mkPooled {
  group_means : list Q;
  group_sizes : list Z;
  all_values : list Q
}.

Definition empty_pooled : pooled := mkPooled [] [] [].

(** Body of [for group in groups: if len(group) > 0: ...] in
    [calculate_f_statistic] (lines 37-41). *)
Definition pool_group_f (st : pooled) (group : list Q) : result pooled :=
  if (0 <? Py.len group)%Z then
    m <- Py.mean group ;;
    Return (mkPooled (group_means st ++ [m])
                     (group_sizes st ++ [Py.len group])
                     (all_values st ++ group))
  else Return st.

(** Body of the same loop in [calculate_eta_squared] (lines 91-95): the
    three updates come in another order. *)
Definition pool_group_eta (st : pooled) (group : list Q) : result pooled :=
  if (0 <? Py.len group)%Z then
    let values := all_values st ++ group in
    m <- Py.mean group ;;
    Return (mkPooled (group_means st ++ [m])
                     (group_sizes st ++ [Py.len group])
                     values)
  else Return st.

(** [sum(n * (mean - grand_mean) ** 2 for mean, n in zip(group_means, group_sizes))] *)
Definition between_sum (means : list Q) (sizes : list Z) (grand_mean : Q) : Q :=
  Py.sum (map (fun '(mean, n) => inject_Z n * (mean - grand_mean) ^ 2)
              (combine means sizes)).

(** Body of the within-groups loop (lines 54-57). *)
Definition ssw_group (ssw : Q) (group : list Q) : result Q :=
  if (1 <? Py.len group)%Z then
    group_mean <- Py.mean group ;;
    Return (ssw + Py.sum (map (fun x => (x - group_mean) ^ 2) group))
  else Return ssw.

(** The bucketed p-value (lines 74-81). *)
Definition p_bucket (f_stat : Q) : Q :=
  if Py.ltb 7.0 f_stat then 0.001
  else if Py.ltb 4.0 f_stat then 0.01
  else if Py.ltb 2.5 f_stat then 0.05
  else 0.1.

Definition calculate_f_statistic (groups : list (list Q)) : result (Q * Q) :=
  if (Py.len groups <? 2)%Z then Return (0, 1)
  else
    st <- for_each pool_group_f groups empty_pooled ;;
    if (Py.len (all_values st) <? 2)%Z then Return (0, 1)
    else
      grand_mean <- Py.mean (all_values st) ;;
      let ssb := between_sum (group_means st) (group_sizes st) grand_mean in
      ssw <- for_each ssw_group groups 0 ;;
      let df_between := (Py.len groups - 1)%Z in
      let df_within := (Py.len (all_values st) - Py.len groups)%Z in
      if ((df_between =? 0) || (df_within =? 0))%Z then Return (0, 1)
      else
        msb <- Py.truediv ssb (inject_Z df_between) ;;
        msw <- (if (0 <? df_within)%Z
                then Py.truediv ssw (inject_Z df_within)
                else Return 1) ;;
        f_stat <- (if Py.ltb 0 msw then Py.truediv msb msw else Return 0) ;;
        Return (f_stat, p_bucket f_stat).

(** ** [calculate_eta_squared] (lines 85-108) *)

Definition calculate_eta_squared (groups : list (list Q)) : result Q :=
  st <- for_each pool_group_eta groups empty_pooled ;;
  if (Py.len (all_values st) <? 2)%Z then Return 0
  else
    grand_mean <- Py.mean (all_values st) ;;
    let total_ss := Py.sum (map (fun x => (x - grand_mean) ^ 2) (all_values st)) in
    let between_ss := between_sum (group_means st) (group_sizes st) grand_mean in
    if Py.ltb 0 total_ss then Py.truediv between_ss total_ss else Return 0.

(** ** [calculate_new_empathy_score] (empathy_score.py, lines 28-56) *)

(** The five LIWC percentage columns of one row of the data frame. *)
Record liwc_row : Type := mkLiwc {
  second_person : Q;
  negative_emotion : Q;
  cognitive_processes : Q;
  insight : Q;
  first_person_singular : Q
}.

(** One row of [df_new]: the row of [df] and the five added columns. *)
Record scored_liwc_row : Type := mkScoredLiwc {
  liwc : liwc_row;
  new_empathy_score : Q;
  second_person_contribution : Q;
  negative_emotion_contribution : Q;
  cognitive_insight_contribution : Q;
  first_person_penalty : Q
}.

(** The column expression of lines 39-44, on one row. *)
Definition score_of (r : liwc_row) : Q :=
  second_person r * 1.5 +
  negative_emotion r * 1.0 +
  (cognitive_processes r + insight r) * 1.2 -
  first_person_singular r * 2.0.

(** Column arithmetic of a data frame acts row by row. *)
Definition calculate_new_empathy_score (df : list liwc_row) : list scored_liwc_row :=
  map (fun r =>
         mkScoredLiwc r
           (score_of r)
           (second_person r * 1.5)
           (negative_emotion r * 1.0)
           ((cognitive_processes r + insight r) * 1.2)
           (first_person_singular r * 2.0))
      df.

(** The formula as the specification prints it, with the coefficients as
    fractions. *)
Definition score_formula (sp ne cp ins fps : Q) : Q :=
  sp * (3 # 2) + ne * 1 + (cp + ins) * (6 # 5) - fps * 2.

(** Rows combined column by column, to state linearity. *)
Definition liwc_scale (k : Q) (r : liwc_row) : liwc_row :=
  mkLiwc (k * second_person r) (k * negative_emotion r)
         (k * cognitive_processes r) (k * insight r)
         (k * first_person_singular r).

Definition liwc_add (r r' : liwc_row) : liwc_row :=
  mkLiwc (second_person r + second_person r')
         (negative_emotion r + negative_emotion r')
         (cognitive_processes r + cognitive_processes r')
         (insight r + insight r')
         (first_person_singular r + first_person_singular r').

(** ** More built-ins: [round] and [str.title] *)

(** [round(x)] to the nearest integer, ties to the even one. *)
Definition round_half_even (x : Q) : Z :=
  let n := Qfloor x in
  let r := x - inject_Z n in
  if Py.ltb r 0.5 then n
  else if Py.ltb 0.5 r then (n + 1)%Z
  else if Z.even n then n else (n + 1)%Z.

(** [round(x, ndigits)] in exact arithmetic. *)
Definition round (x : Q) (ndigits : Z) : Q :=
  inject_Z (round_half_even (x * 10 ^ ndigits)) / 10 ^ ndigits.

Definition is_upper (c : ascii) : bool :=
  let n := nat_of_ascii c in (65 <=? n)%nat && (n <=? 90)%nat.
Definition is_lower (c : ascii) : bool :=
  let n := nat_of_ascii c in (97 <=? n)%nat && (n <=? 122)%nat.
Definition to_upper (c : ascii) : ascii :=
  if is_lower c then ascii_of_nat (nat_of_ascii c - 32) else c.
Definition to_lower (c : ascii) : ascii :=
  if is_upper c then ascii_of_nat (nat_of_ascii c + 32) else c.

(** [s.title()] on ASCII text: a letter that follows a letter is lowered,
    any other letter is raised, other characters are kept. *)
Fixpoint title_from (previous_is_cased : bool) (s : string) : string :=
  match s with
  | EmptyString => EmptyString
  | String c s' =>
      if is_upper c || is_lower c
      then String (if previous_is_cased then to_lower c else to_upper c)
                  (title_from true s')
      else String c (title_from false s')
  end.
Definition title (s : string) : string := title_from false s.

(** ** [analyze_data] (liwc_Anova_results_table.py, lines 110-196) *)

(** A row of the loaded data, with the four columns that [analyze_data]
    reads; the three categorical columns hold text and [empathy_score]
    holds the float that [load_data] stored. *)
Record scored_row : Type := mkRow {
  empathy_type : string;
  attribute_type : string;
  attribute_value : string;
  empathy_score : Q
}.

Definition empathy_types : list string :=
  ["affective"; "cognitive"; "motivational"]%string.

(** [groups_dict[key].append(v)] on a [defaultdict(list)]: the dictionary
    keeps its keys in insertion order. *)
Fixpoint dict_append (d : list (string * list Q)) (key : string) (v : Q)
  : list (string * list Q) :=
  match d with
  | [] => [(key, [v])]
  | (k, vs) :: d' =>
      if String.eqb k key then (k, vs ++ [v]) :: d'
      else (k, vs) :: dict_append d' key v
  end.

(** The loop of lines 129-131. *)
Definition group_by_value (attr_data : list scored_row) : list (string * list Q) :=
  fold_left (fun d row => dict_append d (attribute_value row) (empathy_score row))
            attr_data [].

(** One entry of [group_stats]; [std] is the float square root of
    [variance], which is not a rational operation and is not taken. *)
Record group_stat : Type := mkStat {
  stat_value : string;
  stat_n : Z;
  stat_mean : Q;
  stat_variance : Q
}.

(** [statistics.stdev(l) if len(l) > 1 else 0], before the square root. *)
Definition guarded_variance (l : list Q) : result Q :=
  if (1 <? Py.len l)%Z then Py.variance l else Return 0.

(** Body of the loop of lines 142-148. *)
Definition stat_step (group_stats : list group_stat) (item : string * list Q)
  : result (list group_stat) :=
  let '(attr_value, group) := item in
  if (0 <? Py.len group)%Z then
    m <- Py.mean group ;;
    v <- guarded_variance group ;;
    Return (group_stats ++ [mkStat attr_value (Py.len group) m v])
  else Return group_stats.

(** One result record (lines 179-194).  [Overall_Variance] stands where the
    script stores its rounded square root [Overall_Std], and [Group_Stats]
    where it stores the text [Group_Details] rendered from the same
    statistics. *)
Record anova_record : Type := mkRecord {
  Empathy_Type : string;
  Attribute_Type : string;
  F_Statistic : Q;
  p_Value : Q;
  Significance : string;
  Sig_Level : string;
  Eta_Squared : Q;
  Effect_Size : string;
  Total_N : Z;
  Overall_Mean : Q;
  Overall_Variance : Q;
  Groups : Z;
  Group_Stats : list group_stat
}.

(** Lines 157-168. *)
Definition significance_of (p_value : Q) : string * string :=
  if Py.ltb p_value 0.001 then ("***", "p < 0.001")%string
  else if Py.ltb p_value 0.01 then ("**", "p < 0.01")%string
  else if Py.ltb p_value 0.05 then ("*", "p < 0.05")%string
  else ("ns", "p ≥ 0.05")%string.

(** Lines 171-176. *)
Definition effect_size_of (eta_squared : Q) : string :=
  if Py.geb eta_squared 0.14 then "Large"%string
  else if Py.geb eta_squared 0.06 then "Medium"%string
  else "Small"%string.

(** Body of the inner loop, for one [attr_type] (lines 125-194). *)
Definition analyze_pair (empathy_type0 : string) (empathy_data : list scored_row)
           (results : list anova_record) (attr_type : string)
  : result (list anova_record) :=
  let attr_data :=
    filter (fun row => String.eqb (attribute_type row) attr_type) empathy_data in
  if (0 <? Py.len attr_data)%Z then
    let groups_dict := group_by_value attr_data in
    let groups :=
      filter (fun group => (0 <? Py.len group)%Z) (map snd groups_dict) in
    if (2 <=? Py.len groups)%Z then
      '(f_stat, p_value) <- calculate_f_statistic groups ;;
      eta_squared <- calculate_eta_squared groups ;;
      group_stats <- for_each stat_step groups_dict [] ;;
      let all_scores := map empathy_score attr_data in
      let total_n := Py.len all_scores in
      overall_mean <- Py.mean all_scores ;;
      overall_variance <- guarded_variance all_scores ;;
      let '(significance, sig_level) := significance_of p_value in
      let effect_size := effect_size_of eta_squared in
      Return (results ++
              [mkRecord (title empathy_type0) (title attr_type)
                        (round f_stat 3) (round p_value 4)
                        significance sig_level
                        (round eta_squared 3) effect_size
                        total_n (round overall_mean 2) overall_variance
                        (Py.len groups) group_stats])
    else Return results
  else Return results.

(** Body of the outer loop, for one [empathy_type] (lines 119-194). *)
Definition analyze_type (attribute_types : list string) (data : list scored_row)
           (results : list anova_record) (empathy_type0 : string)
  : result (list anova_record) :=
  let empathy_data :=
    filter (fun row => String.eqb (empathy_type row) empathy_type0) data in
  for_each (analyze_pair empathy_type0 empathy_data) attribute_types results.

(** [analyze_data], given the order in which the set of line 115 lists the
    attribute types: Python leaves the iteration order of a set
    unspecified. *)
Definition analyze_data_in (attribute_types : list string) (data : list scored_row)
  : result (list anova_record) :=
  for_each (analyze_type attribute_types data) empathy_types [].

(** [attribute_types] is a listing of [set(row['attribute_type'] for row in data)]. *)
Definition lists_attribute_types (attribute_types : list string)
           (data : list scored_row) : Prop :=
  NoDup attribute_types /\
  forall a, In a attribute_types <-> In a (map attribute_type data).

(** One admissible order: first occurrences, as they come. *)
Fixpoint distinct (l : list string) : list string :=
  match l with
  | [] => []
  | a :: l' => a :: filter (fun b => negb (String.eqb a b)) (distinct l')
  end.

Definition analyze_data (data : list scored_row) : result (list anova_record) :=
  analyze_data_in (distinct (map attribute_type data)) data.

(** The pair (empathy type, attribute type) has two non-empty
    attribute-value groups: two of its rows differ in [attribute_value]. *)
Definition in_pair (e a : string) (row : scored_row) : Prop :=
  empathy_type row = e /\ attribute_type row = a.

Definition has_two_groups (data : list scored_row) (e a : string) : Prop :=
  exists r1 r2,
    In r1 data /\ In r2 data /\ in_pair e a r1 /\ in_pair e a r2 /\
    attribute_value r1 <> attribute_value r2.

(** A record that reports the pair [(e, a)] of [data]. *)
Definition reports (data : list scored_row) (pair : string * string)
           (r : anova_record) : Prop :=
  let rows := filter (fun row => String.eqb (empathy_type row) (fst pair)
                                 && String.eqb (attribute_type row) (snd pair))
                     data in
  Empathy_Type r = title (fst pair) /\
  Attribute_Type r = title (snd pair) /\
  Total_N r = Py.len rows /\
  Groups r = Py.len (distinct (map attribute_value rows)).

(** ** Pure counterparts for [analyze_data] *)

(** [attr_data] of line 125. *)
Definition attr_rows (empathy_data : list scored_row) (attr_type : string)
  : list scored_row :=
  filter (fun row => String.eqb (attribute_type row) attr_type) empathy_data.

(** [empathy_data] of line 121. *)
Definition type_rows (data : list scored_row) (empathy_type0 : string)
  : list scored_row :=
  filter (fun row => String.eqb (empathy_type row) empathy_type0) data.

(** The test of line 135, on the dictionary of groups. *)
Definition qualifies (empathy_data : list scored_row) (attr_type : string) : bool :=
  (2 <=? Py.len (group_by_value (attr_rows empathy_data attr_type)))%Z.

(** The pairs for which a record is appended, in the order of the loops. *)
Definition emitted_pairs (attribute_types : list string) (data : list scored_row)
           (types : list string) : list (string * string) :=
  flat_map (fun e => map (pair e)
                         (filter (qualifies (type_rows data e)) attribute_types))
           types.

(** What the loop body guarantees about the record it appends. *)
Definition record_ok (e : string) (empathy_data : list scored_row) (a : string)
           (r : anova_record) : Prop :=
  Empathy_Type r = title e /\
  Attribute_Type r = title a /\
  Total_N r = Py.len (attr_rows empathy_data a) /\
  Groups r = Py.len (group_by_value (attr_rows empathy_data a)) /\
  Significance r <> "***"%string.

(** A small data set: one pair with two groups, one pair with one group,
    and a row of an empathy type outside the three. *)
Definition sample_data : list scored_row :=
  [ mkRow "cognitive" "gender" "male" 10;
    mkRow "cognitive" "gender" "female" 20;
    mkRow "cognitive" "gender" "male" 12;
    mkRow "cognitive" "gender" "female" 21;
    mkRow "cognitive" "age" "old" 1;
    mkRow "other" "age" "old" 1 ]%string.

(** ** [load_data] (liwc_Anova_results_table.py, lines 13-25) *)

(** What a field of a row may hold: the text read from the file, [None]
    where [csv.DictReader] pads a short line, or the float that [load_data]
    stores. *)
Inductive value : Type :=
| Str (s : string)
| NoneValue
| Float (x : Q).

(** A row as [csv.DictReader] yields it: a dictionary from column names to
    values, in insertion order. *)
Definition dict : Type := list (string * value).

(** [d[key]]: [KeyError] when the key is absent. *)
Fixpoint dict_get (d : dict) (key : string) : result value :=
  match d with
  | [] => Raise KeyError
  | (k, v) :: d' => if String.eqb k key then Return v else dict_get d' key
  end.

(** [d[key] = v]: replaces the value in place, or adds the key at the end. *)
Fixpoint dict_set (d : dict) (key : string) (v : value) : dict :=
  match d with
  | [] => [(key, v)]
  | (k, v0) :: d' =>
      if String.eqb k key then (k, v) :: d' else (k, v0) :: dict_set d' key v
  end.

(** The dictionary that [csv.DictReader] builds from the header and the
    fields of one line: [dict(zip(fieldnames, row))], then [None] (the
    default [restval]) under every column that the line is too short to
    fill.  The surplus fields of a long line, which the reader stores under
    the key [None], are not represented: the script never reads that key. *)
Definition DictReader_row (fieldnames fields : list string) : dict :=
  let d := fold_left (fun d kv => dict_set d (fst kv) (Str (snd kv)))
                     (combine fieldnames fields) [] in
  fold_left (fun d key => dict_set d key NoneValue)
            (skipn (List.length fields) fieldnames) d.

(** [csv.DictReader(f)] on the lines of the file, already split into
    fields: the first line is the header, blank lines are skipped. *)
Definition DictReader (lines : list (list string)) : list dict :=
  match lines with
  | [] => []
  | fieldnames :: rows =>
      map (DictReader_row fieldnames)
          (filter (fun fields => match fields with [] => false | _ => true end)
                  rows)
  end.

(** [try: body except (ValueError, KeyError): handler] *)
Definition try_except_ValueError_KeyError {A : Type}
           (body handler : result A) : result A :=
  match body with
  | Raise ValueError | Raise KeyError => handler
  | other => other
  end.

Section LoadData.

(** The text-to-float conversion of the built-in [float]: [Some x] when
    the text denotes the number [x], [None] when Python raises
    [ValueError]. *)
Variable parse_float : string -> option Q.

(** [float(v)]: [TypeError] on [None]. *)
Definition float (v : value) : result Q :=
  match v with
  | Str s =>
      match parse_float s with
      | Some x => Return x
      | None => Raise ValueError
      end
  | NoneValue => Raise TypeError
  | Float x => Return x
  end.

(** Body of the loop of lines 19-24. *)
Definition load_row (data : list dict) (row : dict) : result (list dict) :=
  try_except_ValueError_KeyError
    (v <- dict_get row "empathy_score" ;;
     x <- float v ;;
     Return (data ++ [dict_set row "empathy_score" (Float x)]))
    (Return data).

Definition load_data (reader : list dict) : result (list dict) :=
  for_each load_row reader [].

(** The rows that the claim expects back: those whose [empathy_score]
    field parses, with the field converted. *)
Definition parsed_row (row : dict) : list dict :=
  match dict_get row "empathy_score" with
  | Return (Str s) =>
      match parse_float s with
      | Some x => [dict_set row "empathy_score" (Float x)]
      | None => []
      end
  | Return (Float x) => [dict_set row "empathy_score" (Float x)]
  | _ => []
  end.

(** The field is there and is text or a number: the line was not short. *)
Definition field_not_None (row : dict) : Prop :=
  dict_get row "empathy_score" <> Return NoneValue.

End LoadData.

(** A file whose second data line stops before the [empathy_score] column. *)
Definition short_line_file : list (list string) :=
  [ ["attribute_type"; "attribute_value"; "empathy_score"];
    ["gender"; "male"; "3.5"];
    ["gender"; "female"] ]%string.

(** ** Mathematical vocabulary of the specification *)

(** The sum written by structural recursion; [Py.sum] is the left fold. *)
Fixpoint Qsum (l : list Q) : Q :=
  match l with
  | [] => 0
  | x :: l' => x + Qsum l'
  end.

(** The groups that the pooling loops keep. *)
Definition nonempty (groups : list (list Q)) : list (list Q) :=
  filter (fun g => (0 <? Py.len g)%Z) groups.

(** Mean of a sequence as a number (0 on the empty sequence, where Python
    raises: the callers below only use it on non-empty ones). *)
Definition mean_of (l : list Q) : Q := Qsum l / inject_Z (Py.len l).

(** Grand mean over the pooled sample. *)
Definition grand_mean_of (groups : list (list Q)) : Q :=
  mean_of (List.concat groups).

(** Total sum of squares: sum over all pooled elements of
    (element - grand mean) squared. *)
Definition SST (groups : list (list Q)) : Q :=
  Qsum (map (fun x => (x - grand_mean_of groups) ^ 2) (List.concat groups)).

(** Between-groups sum of squares: sum over the non-empty groups of
    group size times (group mean - grand mean) squared. *)
Definition SSB (groups : list (list Q)) : Q :=
  Qsum (map (fun g => inject_Z (Py.len g) * (mean_of g - grand_mean_of groups) ^ 2)
            (nonempty groups)).

(** Within-groups sum of squares: sum over groups of the sum over the
    group's elements of (element - that group's mean) squared. *)
Definition SSW (groups : list (list Q)) : Q :=
  Qsum (map (fun g => Qsum (map (fun x => (x - mean_of g) ^ 2) g)) groups).

(** Degrees of freedom as the code computes them: every group counts,
    empty or not. *)
Definition df_between (groups : list (list Q)) : Z := (Py.len groups - 1)%Z.
Definition df_within (groups : list (list Q)) : Z :=
  (Py.len (List.concat groups) - Py.len groups)%Z.

(** Mean squares of the specification. *)
Definition MSB (groups : list (list Q)) : Q := SSB groups / inject_Z (df_between groups).
Definition MSW (groups : list (list Q)) : Q := SSW groups / inject_Z (df_within groups).

(** ** Pure counterparts of the loops, used to unfold the code *)

(** What [Py.mean] returns on a non-empty list. *)
Definition mean_val (l : list Q) : Q := Py.sum l / inject_Z (Py.len l).

Definition ssw_step (ssw : Q) (group : list Q) : Q :=
  if (1 <? Py.len group)%Z
  then ssw + Py.sum (map (fun x => (x - mean_val group) ^ 2) group)
  else ssw.

Definition ssb_code (groups : list (list Q)) : Q :=
  between_sum (map mean_val (nonempty groups)) (map Py.len (nonempty groups))
              (mean_val (List.concat groups)).

Definition ssw_code (groups : list (list Q)) : Q := fold_left ssw_step groups 0.

Definition sst_code (groups : list (list Q)) : Q :=
  Py.sum (map (fun x => (x - mean_val (List.concat groups)) ^ 2) (List.concat groups)).

(** The F value on the path that reaches the mean squares. *)
Definition f_value (groups : list (list Q)) : Q :=
  let msb := ssb_code groups / inject_Z (df_between groups) in
  let msw := if (0 <? df_within groups)%Z
             then ssw_code groups / inject_Z (df_within groups)
             else 1 in
  if Py.ltb 0 msw then msb / msw else 0.

(** The three early returns of [calculate_f_statistic]. *)
Definition neutral_default (groups : list (list Q)) : bool :=
  (Py.len groups <? 2)%Z
  || (Py.len (List.concat groups) <? 2)%Z
  || ((df_between groups =? 0)%Z || (df_within groups =? 0)%Z).

(** What [calculate_eta_squared] returns, without the monad. *)
Definition eta_value (groups : list (list Q)) : Q :=
  if (Py.len (List.concat groups) <? 2)%Z then 0
  else if Py.ltb 0 (sst_code groups)
       then ssb_code groups / sst_code groups
       else 0.

(** Results compared up to the value of the rational they carry. *)
Definition result_Qeq (r r' : result Q) : Prop :=
  match r, r' with
  | Return x, Return y => x == y
  | Raise e, Raise e' => e = e'
  | _, _ => False
  end.

(** The decimal p-values of the source. *)
Definition p_001 : Q := 0.001.
Definition p_01 : Q := 0.01.
Definition p_05 : Q := 0.05.
Definition p_1 : Q := 0.1.



(** ** Statements that the code does not satisfy, kept for refutation *)

(** Some group means differ. *)
Definition means_differ (groups : list (list Q)) : Prop :=
  exists g g', In g groups /\ In g' groups /\ ~ mean_of g == mean_of g'.

(** Zero within-group spread and distinct means would give F = MSB, with
    MSW taken as 1, and in particular a non-zero F. *)
Definition zero_within_gives_MSB (groups : list (list Q)) : Prop :=
  (2 <= Py.len groups)%Z ->
  Forall (fun g => g <> []) groups ->
  SSW groups == 0 ->
  means_differ groups ->
  exists f p, calculate_f_statistic groups = Return (f, p)
              /\ f == MSB groups /\ ~ f == 0.

(** Fewer than two non-empty groups would give the neutral default. *)
Definition few_nonempty_gives_neutral (groups : list (list Q)) : Prop :=
  (Py.len (nonempty groups) < 2)%Z ->
  exists f p, calculate_f_statistic groups = Return (f, p) /\ f == 0 /\ p == 1.

(** ** Sample inputs *)

Definition two_constant_groups : list (list Q) := [[10; 10; 10]; [20; 20; 20]].
Definition one_group_and_empty : list (list Q) := [[1; 2; 3]; []].
Definition two_spread_groups : list (list Q) := [[1; 2; 3]; [2; 3; 7]].

(** ** Vocabulary for the records of [analyze_data] *)

(** The groups of one attribute type, as line 133 hands them to the two
    statistics. *)
Definition pair_groups (empathy_data : list scored_row) (attr_type : string)
  : list (list Q) :=
  map snd (group_by_value (attr_rows empathy_data attr_type)).

(** Sum of integers. *)
Fixpoint Zsum (l : list Z) : Z :=
  match l with
  | [] => 0%Z
  | n :: l' => (n + Zsum l')%Z
  end.

(** The marker that the F value of a record leads to. *)
Definition marker_rule (f : Q) (marker : string) : Prop :=
  (7.0 < f -> marker = "**"%string) /\
  (4.0 < f -> f <= 7.0 -> marker = "*"%string) /\
  (f <= 4.0 -> marker = "ns"%string).

(** Everything the loop body puts in the record it appends. *)
Definition record_detail (e : string) (empathy_data : list scored_row) (a : string)
           (r : anova_record) : Prop :=
  exists f p eta,
    calculate_f_statistic (pair_groups empathy_data a) = Return (f, p)
    /\ calculate_eta_squared (pair_groups empathy_data a) = Return eta
    /\ Empathy_Type r = title e
    /\ Attribute_Type r = title a
    /\ F_Statistic r = round f 3
    /\ p_Value r = round p 4
    /\ (Significance r, Sig_Level r) = significance_of p
    /\ Eta_Squared r = round eta 3
    /\ Effect_Size r = effect_size_of eta
    /\ Total_N r = Py.len (attr_rows empathy_data a)
    /\ Overall_Mean r = round (mean_val (map empathy_score (attr_rows empathy_data a))) 2
    /\ Groups r = Py.len (pair_groups empathy_data a)
    /\ map stat_value (Group_Stats r)
       = map fst (group_by_value (attr_rows empathy_data a))
    /\ map stat_n (Group_Stats r) = map Py.len (pair_groups empathy_data a)
    /\ map stat_mean (Group_Stats r) = map mean_val (pair_groups empathy_data a).

(** The row belongs to one of the three empathy types of line 114. *)
Definition known_type (row : scored_row) : bool :=
  existsb (String.eqb (empathy_type row)) empathy_types.

(** ** Sample file and conversion for [load_data] *)

(** A file whose data lines all reach the [empathy_score] column; one of
    them is blank and one carries text that is not a number. *)
Definition full_line_file : list (list string) :=
  [ ["attribute_type"; "attribute_value"; "empathy_score"];
    ["gender"; "male"; "3.5"];
    [];
    ["gender"; "female"; "n/a"];
    ["age"; "old"; "3.5"; "surplus"] ]%string.

(** A conversion that knows one number, enough to run the samples. *)
Definition parse_three_and_a_half (s : string) : option Q :=
  if String.eqb s "3.5" then Some 3.5 else None.

(** The row [row'] is a row of [reader] with a float stored under
    [empathy_score]. *)
Definition loaded_from (reader : list dict) (row' : dict) : Prop :=
  exists row x,
    In row reader
    /\ dict_get row' "empathy_score" = Return (Float x)
    /\ (forall key, key <> "empathy_score"%string ->
                    dict_get row' key = dict_get row key).


(** ** Text built-ins used by the tables *)

(** [len(s)] of a text; one [ascii] of the model is one character. *)
Definition str_len (s : string) : Z := Z.of_nat (String.length s).

(** [c * n]: the character repeated, nothing for [n <= 0]. *)
Fixpoint replicate (n : nat) (c : ascii) : string :=
  match n with
  | O => EmptyString
  | S n' => String c (replicate n' c)
  end.

Definition times (c : ascii) (n : Z) : string := replicate (Z.to_nat n) c.

(** [s.ljust(width)]: spaces added on the right up to [width]. *)
Definition ljust (s : string) (width : Z) : string :=
  (s ++ replicate (Z.to_nat (width - str_len s)) " "%char)%string.

(** [sep.join(l)] *)
Fixpoint join (sep : string) (l : list string) : string :=
  match l with
  | [] => EmptyString
  | [s] => s
  | s :: l' => (s ++ sep ++ join sep l')%string
  end.

(** [l[:stop]]: a negative [stop] counts from the end. *)
Definition slice_to {A : Type} (l : list A) (stop : Z) : list A :=
  if (stop <? 0)%Z
  then firstn (List.length l - Z.to_nat (- stop)) l
  else firstn (Z.to_nat stop) l.

(** [str(n)] of an integer. *)
Definition str_of_int (n : Z) : string := NilZero.string_of_int (Z.to_int n).

(** ** The table functions (liwc_Anova_results_table.py, lines 198-277) *)

Section Tables.

(** The values that a row holds, the text [str] gives for each, and the
    empty text [''] among them. *)
Variable V : Type.
Variable str : V -> string.
Variable empty_text : V.

(** A row: a dictionary from column names to values. *)
Definition table_row : Type := list (string * V).

(** [row.get(key)], [None] when the key is absent. *)
Fixpoint row_get (row : table_row) (key : string) : option V :=
  match row with
  | [] => None
  | (k, v) :: row' => if String.eqb k key then Some v else row_get row' key
  end.

(** [row[key] = v] *)
Fixpoint row_set (row : table_row) (key : string) (v : V) : table_row :=
  match row with
  | [] => [(key, v)]
  | (k, v0) :: row' =>
      if String.eqb k key then (k, v) :: row' else (k, v0) :: row_set row' key v
  end.

(** [row.get(key, '')] *)
Definition row_get_or_empty (row : table_row) (key : string) : V :=
  match row_get row key with
  | Some v => v
  | None => empty_text
  end.

(** [str(row.get(header, ''))]; [str('')] is the empty text. *)
Definition text_at (row : table_row) (header : string) : string :=
  match row_get row header with
  | Some v => str v
  | None => EmptyString
  end.

(** [save_csv_table], lines 204-207:
    [{k: row.get(k, '') for k in headers}]. *)
Definition filtered_row (headers : list string) (row : table_row) : table_row :=
  fold_left (fun d k => row_set d k (row_get_or_empty row k)) headers [].

(** What [csv.DictWriter] turns a dictionary into: [ValueError] when a key
    is not a field name, otherwise the values in the order of the field
    names, [''] (the default [restval]) where a name has no value. *)
Definition DictWriter_row (fieldnames : list string) (rowdict : table_row)
  : result (list V) :=
  if existsb (fun k => negb (existsb (String.eqb k) fieldnames)) (map fst rowdict)
  then Raise ValueError
  else Return (map (row_get_or_empty rowdict) fieldnames).

(** [writer.writerows(rows)]: the rows in order, stopping at the first
    that raises. *)
Definition writerows (fieldnames : list string) (rows : list table_row)
  : result (list (list V)) :=
  for_each (fun written rowdict =>
              cells <- DictWriter_row fieldnames rowdict ;;
              Return (written ++ [cells]))
           rows [].

(** [save_csv_table(data, filename, headers)]: the header line and the
    lines of values that are written to the file. *)
Definition save_csv_table (data : list table_row) (headers : list string)
  : result (list string * list (list V)) :=
  let filtered_data := map (filtered_row headers) data in
  written <- writerows headers filtered_data ;;
  Return (headers, written).

(** [col_widths[header]] after the loops of lines 255-259. *)
Definition col_width (data : list table_row) (max_rows : Z) (header : string) : Z :=
  fold_left (fun width row => Z.max width (str_len (text_at row header)))
            (slice_to data max_rows) (str_len header).

(** Line 266. *)
Definition header_line (data : list table_row) (headers : list string)
           (max_rows : Z) : string :=
  join " | " (map (fun header => ljust header (col_width data max_rows header))
                  headers).

(** Line 272. *)
Definition data_line (data : list table_row) (headers : list string)
           (max_rows : Z) (row : table_row) : string :=
  join " | " (map (fun header =>
                     ljust (text_at row header) (col_width data max_rows header))
                  headers).

(** The list [lines] of [format_table_for_display] without the closing
    note: header, rule, one line for each row shown. *)
Definition table_lines (data : list table_row) (headers : list string)
           (max_rows : Z) : list string :=
  header_line data headers max_rows
  :: times "-"%char (str_len (header_line data headers max_rows))
  :: map (data_line data headers max_rows) (slice_to data max_rows).

(** Lines 275-276: the note on the rows that are not shown. *)
Definition more_rows_note (data : list table_row) (max_rows : Z) : list string :=
  if (max_rows <? Py.len data)%Z
  then [("... 还有 " ++ str_of_int (Py.len data - max_rows) ++ " 行数据")%string]
  else [].

Definition format_table_for_display (data : list table_row) (headers : list string)
           (max_rows : Z) : string :=
  match data with
  | [] => "无数据"%string
  | _ :: _ =>
      join (String (ascii_of_nat 10) EmptyString)
           (table_lines data headers max_rows ++ more_rows_note data max_rows)
  end.

End Tables.

Arguments row_get {V} row key.
Arguments row_set {V} row key v.
Arguments row_get_or_empty {V} empty_text row key.
Arguments text_at {V} str row header.
Arguments filtered_row {V} empty_text headers row.
Arguments DictWriter_row {V} empty_text fieldnames rowdict.
Arguments writerows {V} empty_text fieldnames rows.
Arguments save_csv_table {V} empty_text data headers.
Arguments col_width {V} str data max_rows header.
Arguments header_line {V} str data headers max_rows.
Arguments data_line {V} str data headers max_rows row.
Arguments table_lines {V} str data headers max_rows.
Arguments more_rows_note {V} data max_rows.
Arguments format_table_for_display {V} str data headers max_rows.

(** ** [create_significance_summary] (lines 223-247) *)

(** One row of [sig_summary]. *)
Record significance_row : Type := mkSigRow {
  Summary_Empathy_Type : string;
  Significant_Attributes : string;
  Non_Significant_Attributes : string;
  Total_Significant : Z;
  Total_Tests : Z
}.

Definition is_ns (r : anova_record) : bool := String.eqb (Significance r) "ns".

(** [', '.join(l) if l else 'None'] *)
Definition join_or_None (l : list string) : string :=
  match l with
  | [] => "None"%string
  | _ :: _ => join ", " l
  end.

(** Body of the loop of lines 230-242. *)
Definition summary_of_type (results : list anova_record) (empathy_type0 : string)
  : significance_row :=
  let empathy_results :=
    filter (fun r => String.eqb (Empathy_Type r) empathy_type0) results in
  let significant_attrs :=
    map Attribute_Type (filter (fun r => negb (is_ns r)) empathy_results) in
  let non_significant_attrs :=
    map Attribute_Type (filter is_ns empathy_results) in
  mkSigRow empathy_type0
           (join_or_None significant_attrs)
           (join_or_None non_significant_attrs)
           (Py.len significant_attrs)
           (Py.len empathy_results).

(** [create_significance_summary], given the order in which the set of
    line 227 lists the empathy types of the results. *)
Definition create_significance_summary_in (types : list string)
           (results : list anova_record) : list significance_row * list string :=
  (map (summary_of_type results) types,
   ["Empathy_Type"; "Significant_Attributes"; "Non_Significant_Attributes";
    "Total_Significant"; "Total_Tests"]%string).

(** [types] is a listing of [set(r['Empathy_Type'] for r in results)]. *)
Definition lists_result_types (types : list string) (results : list anova_record)
  : Prop :=
  NoDup types /\ forall t, In t types <-> In t (map Empathy_Type results).

Definition create_significance_summary (results : list anova_record)
  : list significance_row * list string :=
  create_significance_summary_in (distinct (map Empathy_Type results)) results.

(** Two records that differ in type and marker, to run the summary. *)
Definition sample_results : list anova_record :=
  [ mkRecord "Affective" "Age" 8 0.001 "**" "p < 0.01" 0.5 "Large" 10 1 1 2 [];
    mkRecord "Cognitive" "Age" 1 0.1 "ns" "p ≥ 0.05" 0.01 "Small" 10 1 1 2 [];
    mkRecord "Affective" "Gender" 0 1 "ns" "p ≥ 0.05" 0 "Small" 4 1 1 2 [] ]%string.

(** ** [run_all_analysis.py] (lines 11-62) *)

(** How the child process of one script ends: exit status 0, a non-zero
    status ([CalledProcessError]), or another exception of
    [subprocess.run]. *)
Inductive outcome : Set :=
| Exit_zero
| Called_process_error
| Other_exception.

(** What the batch prints about one script. *)
Inductive report : Set :=
| Ran_successfully
| Run_failed
| File_missing.

Section Batch.

(** The file system and the processes are outside the program: the state
    of the world, the test [os.path.exists], the creation of a directory,
    which may fail with an [OSError] (no permission, a read-only file
    system) or another exception, and the run of a script, which may
    change the world.  Writing to the standard output is taken to succeed
    and no signal interrupts the run. *)
Variable world : Type.
Variable path_exists : world -> string -> bool.
Variable makedirs : world -> string -> result world.
Variable subprocess_run : world -> string -> world * outcome.

(** [run_script(script_name)]: [True] on exit status 0, [False] on any
    exception. *)
Definition run_script (w : world) (script_name : string) : world * bool :=
  let '(w', o) := subprocess_run w script_name in
  (w', match o with
       | Exit_zero => true
       | Called_process_error | Other_exception => false
       end).

Definition scripts : list string :=
  ["empathy_score.py"; "liwc_Anova_results_table.py";
   "liwc_Anova_graph.py"; "liwc_anovaTest.py"]%string.

Record batch : Type := mkBatch {
  now : world;
  success_count : Z;
  printed : list (string * report)
}.

(** Body of the loop of lines 51-56. *)
Definition batch_step (st : batch) (script : string) : batch :=
  if path_exists (now st) script then
    let '(w', ok) := run_script (now st) script in
    if ok
    then mkBatch w' (success_count st + 1) (printed st ++ [(script, Ran_successfully)])
    else mkBatch w' (success_count st) (printed st ++ [(script, Run_failed)])
  else mkBatch (now st) (success_count st) (printed st ++ [(script, File_missing)]).

(** [main()]: the final state and [total_count].  The call of
    [os.makedirs], lines 36-38, is outside any [try]: its exception ends
    the run before any script is started. *)
Definition run_all_analysis_main (w : world) : result (batch * Z) :=
  w0 <- (if path_exists w "output" then Return w else makedirs w "output") ;;
  Return (fold_left batch_step scripts (mkBatch w0 0 []), Py.len scripts).

End Batch.

Arguments run_script {world} subprocess_run w script_name.
Arguments batch_step {world} path_exists subprocess_run st script.
Arguments run_all_analysis_main {world} path_exists makedirs subprocess_run w.
Arguments now {world} b.
Arguments success_count {world} b.
Arguments printed {world} b.
Arguments mkBatch {world} now success_count printed.

(** Number of scripts reported as run successfully. *)
Definition successes (l : list (string * report)) : Z :=
  Py.len (filter (fun sr => match snd sr with
                            | Ran_successfully => true
                            | _ => false
                            end) l).

(** ** The range in which the exact model describes the float code *)

(** The largest magnitude considered, 1e100.  With every value within it,
    every difference the functions take is at most 2e100 and every square
    at most 4e200; a Python list has fewer than 2^63 elements, so every
    sum stays far below the largest float, about 1.8e308: no [** 2] raises
    [OverflowError] and no operation gives an infinity or a NaN. *)
Definition value_bound : Q := inject_Z (10 ^ 100).

Definition bounded_values (groups : list (list Q)) : Prop :=
  Forall (Forall (fun x => Qabs x <= value_bound)) groups.

(** 2^1023, a float; the largest one is just under 2^1024. *)
Definition float_range : Q := inject_Z (2 ^ 1023).

(** The numbers that the two functions square (a value less its group
    mean, a value less the grand mean, a group mean less the grand mean)
    have their squares inside the float range. *)
Definition squares_in_range (groups : list (list Q)) : Prop :=
  forall g x,
    In g groups -> In x g ->
    (x - mean_of g) ^ 2 < float_range
    /\ (x - grand_mean_of groups) ^ 2 < float_range
    /\ (mean_of g - grand_mean_of groups) ^ 2 < float_range.

(** Text made of ASCII characters, on which [title] is [str.title]. *)
Fixpoint is_ascii (s : string) : bool :=
  match s with
  | EmptyString => true
  | String c s' => (nat_of_ascii c <? 128)%nat && is_ascii s'
  end.

(** Rows on which the model of [analyze_data] describes the script: the
    attribute type is ASCII text and the score is a finite number within
    the bound. *)
Definition row_in_range (row : scored_row) : Prop :=
  is_ascii (attribute_type row) = true /\ Qabs (empathy_score row) <= value_bound.

Definition rows_in_range (data : list scored_row) : Prop := Forall row_in_range data.

(** * The same functions in binary64

    What the interpreter computes: IEEE 754 binary64 with rounding to
    nearest, ties to even, on Rocq's primitive floats.  This model is used
    to exhibit what rounding and overflow do; the properties that hold in
    exact arithmetic are proved on the rational model above. *)

Module F64.

(** The rational that a finite float is (0 for the others). *)
Definition to_Q (x : PrimFloat.float) : Q :=
  match Prim2SF x with
  | S754_finite s m e =>
      (if s then inject_Z (Z.neg m) else inject_Z (Z.pos m)) * 2 ^ e
  | _ => 0
  end.

(** The float nearest to a rational, ties to even. *)
Definition of_Q (q : Q) : PrimFloat.float :=
  match Qnum q with
  | Z0 => zero
  | Zpos n =>
      SF2Prim (SFdiv prec emax (S754_finite false n 0)
                     (S754_finite false (Qden q) 0))
  | Zneg n =>
      SF2Prim (SFdiv prec emax (S754_finite true n 0)
                     (S754_finite false (Qden q) 0))
  end.

(** [float(n)] of an integer; the integers converted here are lengths and
    64-bit cells, far inside the range where the conversion cannot
    overflow. *)
Definition of_int (n : Z) : PrimFloat.float := of_Q (inject_Z n).

(** [sum(l)]: starts from [0] and adds from left to right (CPython up to
    3.11; later versions compensate the rounding errors of the partial
    sums). *)
Definition sum (l : list PrimFloat.float) : PrimFloat.float :=
  fold_left PrimFloat.add l zero.

(** [x ** 2]: [OverflowError] when the square of a finite float is out of
    range. *)
Definition pow2 (x : PrimFloat.float) : result PrimFloat.float :=
  let y := PrimFloat.mul x x in
  if is_finite x && is_infinity y then Raise OverflowError else Return y.

(** [x / y]: [ZeroDivisionError] on a zero divisor. *)
Definition truediv (x y : PrimFloat.float) : result PrimFloat.float :=
  if PrimFloat.eqb y zero then Raise ZeroDivisionError
  else Return (PrimFloat.div x y).

(** [statistics.mean(l)]: the exact sum of the values divided by their
    number, rounded once; when some value is not finite, the float sum of
    those values divided by the number of points. *)
Definition mean (l : list PrimFloat.float) : result PrimFloat.float :=
  match l with
  | [] => Raise StatisticsError
  | _ :: _ =>
      if forallb is_finite l
      then Return (of_Q (Qred (Py.sum (map to_Q l)) / inject_Z (Py.len l)))
      else Return (PrimFloat.div (sum (filter (fun x => negb (is_finite x)) l))
                                 (of_int (Py.len l)))
  end.

(** The terms of a generator expression, the first exception aborting. *)
Fixpoint map_result {A B : Type} (f : A -> result B) (l : list A)
  : result (list B) :=
  match l with
  | [] => Return []
  | a :: l' => b <- f a ;; bs <- map_result f l' ;; Return (b :: bs)
  end.

Record pooled : Type := mkPooled {
  group_means : list PrimFloat.float;
  group_sizes : list Z;
  all_values : list PrimFloat.float
}.

(** Lines 37-41 and 91-95. *)
Definition pool_group (st : pooled) (group : list PrimFloat.float)
  : result pooled :=
  if (0 <? Py.len group)%Z then
    m <- mean group ;;
    Return (mkPooled (group_means st ++ [m])
                     (group_sizes st ++ [Py.len group])
                     (all_values st ++ group))
  else Return st.

(** [sum(n * (mean - grand_mean) ** 2 for mean, n in zip(group_means, group_sizes))] *)
Definition between_sum (means : list PrimFloat.float) (sizes : list Z)
           (grand_mean : PrimFloat.float) : result PrimFloat.float :=
  terms <- map_result (fun '(mean, n) =>
                         sq <- pow2 (PrimFloat.sub mean grand_mean) ;;
                         Return (PrimFloat.mul (of_int n) sq))
                      (combine means sizes) ;;
  Return (sum terms).

(** [sum((x - c) ** 2 for x in l)] *)
Definition squares_around (c : PrimFloat.float) (l : list PrimFloat.float)
  : result PrimFloat.float :=
  terms <- map_result (fun x => pow2 (PrimFloat.sub x c)) l ;;
  Return (sum terms).

(** Lines 54-57. *)
Definition ssw_group (ssw : PrimFloat.float) (group : list PrimFloat.float)
  : result PrimFloat.float :=
  if (1 <? Py.len group)%Z then
    group_mean <- mean group ;;
    s <- squares_around group_mean group ;;
    Return (PrimFloat.add ssw s)
  else Return ssw.

(** Lines 74-81. *)
Definition p_bucket (f_stat : PrimFloat.float) : PrimFloat.float :=
  if PrimFloat.ltb 7.0%float f_stat then 0.001%float
  else if PrimFloat.ltb 4.0%float f_stat then 0.01%float
  else if PrimFloat.ltb 2.5%float f_stat then 0.05%float
  else 0.1%float.

(** Lines 27-83; the integers [0] and [1] of the early returns are the
    floats of the same value. *)
Definition calculate_f_statistic (groups : list (list PrimFloat.float))
  : result (PrimFloat.float * PrimFloat.float) :=
  if (Py.len groups <? 2)%Z then Return (zero, one)
  else
    st <- for_each pool_group groups (mkPooled [] [] []) ;;
    if (Py.len (all_values st) <? 2)%Z then Return (zero, one)
    else
      grand_mean <- mean (all_values st) ;;
      ssb <- between_sum (group_means st) (group_sizes st) grand_mean ;;
      ssw <- for_each ssw_group groups zero ;;
      let df_between := (Py.len groups - 1)%Z in
      let df_within := (Py.len (all_values st) - Py.len groups)%Z in
      if ((df_between =? 0) || (df_within =? 0))%Z then Return (zero, one)
      else
        msb <- truediv ssb (of_int df_between) ;;
        msw <- (if (0 <? df_within)%Z
                then truediv ssw (of_int df_within)
                else Return one) ;;
        f_stat <- (if PrimFloat.ltb zero msw then truediv msb msw
                   else Return zero) ;;
        Return (f_stat, p_bucket f_stat).

(** Lines 85-108. *)
Definition calculate_eta_squared (groups : list (list PrimFloat.float))
  : result PrimFloat.float :=
  st <- for_each pool_group groups (mkPooled [] [] []) ;;
  if (Py.len (all_values st) <? 2)%Z then Return zero
  else
    grand_mean <- mean (all_values st) ;;
    total_ss <- squares_around grand_mean (all_values st) ;;
    between_ss <- between_sum (group_means st) (group_sizes st) grand_mean ;;
    if PrimFloat.ltb zero total_ss then truediv between_ss total_ss
    else Return zero.

(** A cell of a numeric column of the data frame: pandas reads a column of
    whole numbers as int64 and any other numeric column as float64. *)
Inductive cell : Set :=
| Int64 (n : Z)
| Float64 (x : PrimFloat.float).

(** The value of an int64 sum: two's complement, no overflow check. *)
Definition wrap64 (n : Z) : Z := ((n + 2 ^ 63) mod 2 ^ 64 - 2 ^ 63)%Z.

Definition to_float (c : cell) : PrimFloat.float :=
  match c with
  | Int64 n => of_int n
  | Float64 x => x
  end.

(** [a + b] on two columns: int64 when both are, float64 otherwise. *)
Definition cell_add (a b : cell) : cell :=
  match a, b with
  | Int64 m, Int64 n => Int64 (wrap64 (m + n))
  | _, _ => Float64 (PrimFloat.add (to_float a) (to_float b))
  end.

Record liwc_row : Set := mkLiwc {
  second_person : cell;
  negative_emotion : cell;
  cognitive_processes : cell;
  insight : cell;
  first_person_singular : cell
}.

(** Lines 39-44 of empathy_score.py on one row: a column times a Python
    float is a float64 column. *)
Definition score_of (r : liwc_row) : PrimFloat.float :=
  PrimFloat.sub
    (PrimFloat.add
       (PrimFloat.add
          (PrimFloat.mul (to_float (second_person r)) 1.5%float)
          (PrimFloat.mul (to_float (negative_emotion r)) 1.0%float))
       (PrimFloat.mul (to_float (cell_add (cognitive_processes r) (insight r)))
                      1.2%float))
    (PrimFloat.mul (to_float (first_person_singular r)) 2.0%float).

(** The column [new_empathy_score] of [calculate_new_empathy_score]. *)
Definition calculate_new_empathy_score (df : list liwc_row)
  : list PrimFloat.float :=
  map score_of df.

End F64.

(** ** Statements that the float code does not satisfy, kept for refutation *)

(** [calculate_f_statistic] would return, with F >= 0 and p among the five
    values. *)
Definition returns_F_and_p_f64 (groups : list (list PrimFloat.float)) : Prop :=
  exists f p,
    F64.calculate_f_statistic groups = Return (f, p)
    /\ PrimFloat.leb zero f = true
    /\ (p = 0.001%float \/ p = 0.01%float \/ p = 0.05%float \/ p = 0.1%float
        \/ p = one).

(** [calculate_eta_squared] would return the same float on a reordering. *)
Definition eta_order_invariant_f64 (groups groups' : list (list PrimFloat.float))
  : Prop :=
  Permutation groups groups' ->
  F64.calculate_eta_squared groups = F64.calculate_eta_squared groups'.

(** Moving one input by [d], the others fixed, would move the float score
    by [d] times the coefficient of the input. *)
Definition score_linear_f64 (sp ne cp ins fps d : PrimFloat.float) : Prop :=
  let score a b c e g :=
    F64.score_of (F64.mkLiwc (F64.Float64 a) (F64.Float64 b) (F64.Float64 c)
                             (F64.Float64 e) (F64.Float64 g)) in
  PrimFloat.sub (score (PrimFloat.add sp d) ne cp ins fps) (score sp ne cp ins fps)
  = PrimFloat.mul 1.5%float d
  /\ PrimFloat.sub (score sp (PrimFloat.add ne d) cp ins fps) (score sp ne cp ins fps)
     = PrimFloat.mul 1.0%float d
  /\ PrimFloat.sub (score sp ne (PrimFloat.add cp d) ins fps) (score sp ne cp ins fps)
     = PrimFloat.mul 1.2%float d
  /\ PrimFloat.sub (score sp ne cp (PrimFloat.add ins d) fps) (score sp ne cp ins fps)
     = PrimFloat.mul 1.2%float d
  /\ PrimFloat.sub (score sp ne cp ins (PrimFloat.add fps d)) (score sp ne cp ins fps)
     = PrimFloat.opp (PrimFloat.mul 2.0%float d).

(** [analyze_data] would hold one record for every pair (empathy type,
    attribute type) with two groups, whatever the empathy type. *)
Definition one_record_for_every_pair (data : list scored_row) : Prop :=
  exists emitted results,
    analyze_data data = Return results
    /\ NoDup emitted
    /\ Forall2 (reports data) emitted results
    /\ (forall e a, In (e, a) emitted <-> has_two_groups data e a).

(** ** More sample inputs *)

(** A value whose square is out of the float range. *)
Definition huge_groups : list (list PrimFloat.float) :=
  [[0x1p520%float; 0%float]; [0%float; 0%float]].

Definition three_small_groups : list (list PrimFloat.float) :=
  [[8%float; 8%float; 3%float]; [5%float; 1%float];
   [7%float; 0%float; 9%float; 2%float]].

(** Two groups of an empathy type that the script does not examine. *)
Definition other_type_data : list scored_row :=
  [ mkRow "other" "age" "old" 1; mkRow "other" "age" "young" 2 ]%string.

(** * Reasoning layer *)

(** Squares stay written as squares under [simpl]. *)
Arguments Qpower _ _ : simpl never.

(** ** Booleans of the built-ins *)

Lemma ltb_lt (x y : Q) : Py.ltb x y = true <-> x < y.
Proof. unfold Py.ltb, Qlt. apply Z.ltb_lt. Qed.

Lemma ltb_ge (x y : Q) : Py.ltb x y = false <-> y <= x.
Proof. unfold Py.ltb, Qle. apply Z.ltb_ge. Qed.

Lemma geb_ge (x y : Q) : Py.geb x y = true <-> y <= x.
Proof. unfold Py.geb. apply Qle_bool_iff. Qed.

#[export] Instance ltb_Proper : Proper (Qeq ==> Qeq ==> eq) Py.ltb.
Proof.
  intros x x' Hx y y' Hy.
  destruct (Py.ltb x y) eqn:E, (Py.ltb x' y') eqn:E'; try reflexivity.
  - apply ltb_lt in E. apply ltb_ge in E'. lra.
  - apply ltb_ge in E. apply ltb_lt in E'. lra.
Qed.

Lemma len_nonneg {A : Type} (l : list A) : (0 <= Py.len l)%Z.
Proof. unfold Py.len. lia. Qed.

Lemma len_cons {A : Type} (a : A) (l : list A) : Py.len (a :: l) = (Py.len l + 1)%Z.
Proof. unfold Py.len. simpl List.length. lia. Qed.

Lemma len_app {A : Type} (l l' : list A) : Py.len (l ++ l') = (Py.len l + Py.len l')%Z.
Proof. unfold Py.len. rewrite length_app. lia. Qed.

Lemma len_nil {A : Type} : Py.len (@nil A) = 0%Z.
Proof. reflexivity. Qed.

Lemma len_pos_iff {A : Type} (l : list A) : (0 <? Py.len l)%Z = true <-> l <> [].
Proof.
  destruct l as [|a l].
  - split; [discriminate | congruence].
  - rewrite len_cons. pose proof (len_nonneg l).
    split; [discriminate | intros _; apply Z.ltb_lt; lia].
Qed.

Lemma truediv_ok (x y : Q) : ~ y == 0 -> Py.truediv x y = Return (x / y).
Proof.
  intros H. unfold Py.truediv.
  destruct (Qeq_bool y 0) eqn:E; [|reflexivity].
  apply Qeq_bool_eq in E. contradiction.
Qed.

Lemma inject_Z_nonzero (z : Z) : z <> 0%Z -> ~ inject_Z z == 0.
Proof.
  intros H E. apply H. unfold Qeq in E. simpl in E. lia.
Qed.

(** ** Sums *)

Lemma fold_left_Qplus (l : list Q) (a : Q) : fold_left Qplus l a == a + Qsum l.
Proof.
  revert a. induction l as [|x l IH]; intros a; simpl.
  - ring.
  - rewrite IH. ring.
Qed.

Lemma sum_Qsum (l : list Q) : Py.sum l == Qsum l.
Proof. unfold Py.sum. rewrite fold_left_Qplus. ring. Qed.

Lemma Qsum_app (l l' : list Q) : Qsum (l ++ l') == Qsum l + Qsum l'.
Proof. induction l as [|x l IH]; simpl; [ring | rewrite IH; ring]. Qed.

Lemma Qsum_nonneg (l : list Q) : Forall (fun x => 0 <= x) l -> 0 <= Qsum l.
Proof. induction 1; simpl; lra. Qed.

Lemma Qsum_map_ext {A : Type} (f g : A -> Q) (l : list A) :
  (forall a, In a l -> f a == g a) -> Qsum (map f l) == Qsum (map g l).
Proof.
  induction l as [|a l IH]; intros H; simpl; [reflexivity|].
  rewrite (H a) by (now left). rewrite IH; [reflexivity|].
  intros b Hb. apply H. now right.
Qed.

Lemma Qsum_map_Permutation {A : Type} (f : A -> Q) (l l' : list A) :
  Permutation l l' -> Qsum (map f l) == Qsum (map f l').
Proof.
  induction 1; simpl.
  - reflexivity.
  - rewrite IHPermutation. reflexivity.
  - ring.
  - now rewrite IHPermutation1.
Qed.

Lemma Qsum_map_concat {A : Type} (f : A -> Q) (ls : list (list A)) :
  Qsum (map f (List.concat ls)) == Qsum (map (fun l => Qsum (map f l)) ls).
Proof.
  induction ls as [|l ls IH]; simpl; [reflexivity|].
  rewrite map_app, Qsum_app, IH. reflexivity.
Qed.

Lemma sq_nonneg (x : Q) : 0 <= x ^ 2.
Proof. nra. Qed.

Lemma Qsum_sq_nonneg (c : Q) (l : list Q) : 0 <= Qsum (map (fun x => (x - c) ^ 2) l).
Proof.
  apply Qsum_nonneg, Forall_forall. intros y Hy.
  apply in_map_iff in Hy. destruct Hy as [x [<- _]]. apply sq_nonneg.
Qed.

(** ** The loops never raise: closed forms *)

Lemma mean_nonempty (l : list Q) : l <> [] -> Py.mean l = Return (mean_val l).
Proof. destruct l; [congruence | reflexivity]. Qed.

Lemma pool_f_closed (groups : list (list Q)) (st : pooled) :
  for_each pool_group_f groups st =
  Return (mkPooled (group_means st ++ map mean_val (nonempty groups))
                   (group_sizes st ++ map Py.len (nonempty groups))
                   (all_values st ++ List.concat groups)).
Proof.
  revert st. induction groups as [|g groups IH]; intros [ms ns vs]; simpl.
  - now rewrite !app_nil_r.
  - unfold pool_group_f at 1.
    destruct (0 <? Py.len g)%Z eqn:E.
    + apply len_pos_iff in E. rewrite (mean_nonempty g E). simpl.
      rewrite IH. simpl. now rewrite <- !app_assoc.
    + assert (g = []) as ->.
      { destruct g; [reflexivity|]. rewrite len_cons in E.
        pose proof (len_nonneg g). apply Z.ltb_ge in E. lia. }
      simpl. rewrite IH. reflexivity.
Qed.

Lemma pool_eta_closed (groups : list (list Q)) (st : pooled) :
  for_each pool_group_eta groups st = for_each pool_group_f groups st.
Proof.
  revert st. induction groups as [|g groups IH]; intros st; simpl; [reflexivity|].
  unfold pool_group_eta, pool_group_f.
  destruct (0 <? Py.len g)%Z; simpl; [|apply IH].
  destruct (Py.mean g); simpl; [apply IH | reflexivity].
Qed.

Lemma ssw_closed (groups : list (list Q)) (a : Q) :
  for_each ssw_group groups a = Return (fold_left ssw_step groups a).
Proof.
  revert a. induction groups as [|g groups IH]; intros a; simpl; [reflexivity|].
  unfold ssw_group at 1, ssw_step at 2.
  destruct (1 <? Py.len g)%Z eqn:E; simpl; [|apply IH].
  rewrite mean_nonempty; [simpl; apply IH|].
  intros ->. discriminate.
Qed.

(** [calculate_f_statistic] without the monad. *)
Lemma calculate_f_statistic_unfold (groups : list (list Q)) :
  calculate_f_statistic groups =
  Return (if neutral_default groups then (0, 1)
          else (f_value groups, p_bucket (f_value groups))).
Proof.
  unfold calculate_f_statistic, neutral_default.
  destruct (Py.len groups <? 2)%Z eqn:E1; [reflexivity|]. simpl orb.
  rewrite pool_f_closed. simpl.
  destruct (Py.len (List.concat groups) <? 2)%Z eqn:E2; [reflexivity|]. simpl orb.
  rewrite mean_nonempty
    by (intros H; rewrite H in E2; discriminate).
  simpl. rewrite ssw_closed. simpl.
  fold (df_between groups) (df_within groups).
  destruct ((df_between groups =? 0)%Z || (df_within groups =? 0)%Z) eqn:E3;
    [reflexivity|].
  apply orb_false_iff in E3. destruct E3 as [Eb Ew].
  apply Z.eqb_neq in Eb, Ew.
  rewrite truediv_ok by (now apply inject_Z_nonzero). simpl.
  fold (ssb_code groups) (ssw_code groups).
  assert (Hmsw : (if (0 <? df_within groups)%Z
                  then Py.truediv (ssw_code groups) (inject_Z (df_within groups))
                  else Return 1)
                 = Return (if (0 <? df_within groups)%Z
                           then ssw_code groups / inject_Z (df_within groups)
                           else 1)).
  { destruct (0 <? df_within groups)%Z; [|reflexivity].
    now rewrite truediv_ok by (now apply inject_Z_nonzero). }
  rewrite Hmsw. simpl. unfold f_value.
  set (msw := if (0 <? df_within groups)%Z then _ else _).
  destruct (Py.ltb 0 msw) eqn:E4; simpl; [|reflexivity].
  apply ltb_lt in E4.
  rewrite truediv_ok by (intros H; rewrite H in E4; lra). reflexivity.
Qed.

(** ** The code's sums are the specification's sums *)

Lemma mean_val_of (l : list Q) : mean_val l == mean_of l.
Proof. unfold mean_val, mean_of. now rewrite sum_Qsum. Qed.

Lemma combine_map {A B C : Type} (f : A -> B) (g : A -> C) (l : list A) :
  combine (map f l) (map g l) = map (fun a => (f a, g a)) l.
Proof. induction l as [|a l IH]; simpl; [reflexivity | now rewrite IH]. Qed.

Lemma between_sum_spec (ne : list (list Q)) (grand_mean grand_mean' : Q) :
  grand_mean == grand_mean' ->
  between_sum (map mean_val ne) (map Py.len ne) grand_mean ==
  Qsum (map (fun g => inject_Z (Py.len g) * (mean_of g - grand_mean') ^ 2) ne).
Proof.
  intros HG. unfold between_sum.
  rewrite sum_Qsum, combine_map, map_map.
  apply Qsum_map_ext. intros g _. now rewrite mean_val_of, HG.
Qed.

Lemma ssb_code_spec (groups : list (list Q)) : ssb_code groups == SSB groups.
Proof. unfold ssb_code, SSB. apply between_sum_spec, mean_val_of. Qed.

Lemma sst_code_spec (groups : list (list Q)) : sst_code groups == SST groups.
Proof.
  unfold sst_code, SST, grand_mean_of. rewrite sum_Qsum.
  apply Qsum_map_ext. intros x _. now rewrite mean_val_of.
Qed.

(** A group of at most one element has no spread around its own mean: this
    is why the code may skip it in the within-groups loop. *)
Lemma within_small (g : list Q) :
  (1 <? Py.len g)%Z = false -> Qsum (map (fun x => (x - mean_of g) ^ 2) g) == 0.
Proof.
  destruct g as [|x [|y g]]; intros H.
  - reflexivity.
  - unfold mean_of. change (Py.len [x]) with 1%Z. simpl. change (inject_Z 1) with 1. field.
  - rewrite !len_cons in H. pose proof (len_nonneg g).
    apply Z.ltb_ge in H. lia.
Qed.

Lemma fold_ssw_step (groups : list (list Q)) (a : Q) :
  fold_left ssw_step groups a ==
  a + Qsum (map (fun g => Qsum (map (fun x => (x - mean_of g) ^ 2) g)) groups).
Proof.
  revert a. induction groups as [|g groups IH]; intros a; simpl.
  - ring.
  - rewrite IH. unfold ssw_step.
    destruct (1 <? Py.len g)%Z eqn:E.
    + rewrite sum_Qsum.
      rewrite (Qsum_map_ext (fun x => (x - mean_val g) ^ 2)
                            (fun x => (x - mean_of g) ^ 2))
        by (intros x _; now rewrite mean_val_of).
      ring.
    + rewrite (within_small g E). ring.
Qed.

Lemma ssw_code_spec (groups : list (list Q)) : ssw_code groups == SSW groups.
Proof. unfold ssw_code, SSW. rewrite fold_ssw_step. ring. Qed.

(** ** Signs, and the decomposition SST = SSB + SSW *)

Lemma SSW_nonneg (groups : list (list Q)) : 0 <= SSW groups.
Proof.
  unfold SSW. apply Qsum_nonneg, Forall_forall. intros y Hy.
  apply in_map_iff in Hy. destruct Hy as [g [<- _]]. apply Qsum_sq_nonneg.
Qed.

Lemma SST_nonneg (groups : list (list Q)) : 0 <= SST groups.
Proof. apply Qsum_sq_nonneg. Qed.

Lemma SSB_nonneg (groups : list (list Q)) : 0 <= SSB groups.
Proof.
  unfold SSB. apply Qsum_nonneg, Forall_forall. intros y Hy.
  apply in_map_iff in Hy. destruct Hy as [g [<- _]].
  pose proof (len_nonneg g) as Hn. rewrite Zle_Qle in Hn.
  pose proof (sq_nonneg (mean_of g - grand_mean_of groups)).
  change (inject_Z 0) with 0 in Hn. nra.
Qed.

(** Spread of one list around any point [c], split at any point [m]. *)
Lemma spread_shift (g : list Q) (m c : Q) :
  Qsum (map (fun x => (x - c) ^ 2) g) ==
  Qsum (map (fun x => (x - m) ^ 2) g)
  + 2 * (m - c) * (Qsum g - inject_Z (Py.len g) * m)
  + inject_Z (Py.len g) * (m - c) ^ 2.
Proof.
  induction g as [|x g IH].
  - change (Py.len (@nil Q)) with 0%Z. change (inject_Z 0) with 0. simpl. ring.
  - simpl Qsum. simpl map. simpl Qsum. rewrite IH, len_cons, inject_Z_plus.
    change (inject_Z 1) with 1. ring.
Qed.

(** Around its own mean the cross term vanishes. *)
Lemma spread_group (g : list Q) (c : Q) :
  g <> [] ->
  Qsum (map (fun x => (x - c) ^ 2) g) ==
  Qsum (map (fun x => (x - mean_of g) ^ 2) g)
  + inject_Z (Py.len g) * (mean_of g - c) ^ 2.
Proof.
  intros Hg. rewrite (spread_shift g (mean_of g) c).
  assert (Hn : ~ inject_Z (Py.len g) == 0).
  { apply inject_Z_nonzero. destruct g; [congruence|].
    rewrite len_cons. pose proof (len_nonneg g). lia. }
  assert (H0 : Qsum g - inject_Z (Py.len g) * mean_of g == 0).
  { unfold mean_of. field. exact Hn. }
  rewrite H0. ring.
Qed.

Lemma decomposition_at (groups : list (list Q)) (c : Q) :
  Qsum (map (fun x => (x - c) ^ 2) (List.concat groups)) ==
  Qsum (map (fun g => inject_Z (Py.len g) * (mean_of g - c) ^ 2) (nonempty groups))
  + SSW groups.
Proof.
  unfold SSW. induction groups as [|g groups IH]; simpl.
  - ring.
  - rewrite map_app, Qsum_app, IH.
    destruct (0 <? Py.len g)%Z eqn:E.
    + apply len_pos_iff in E. simpl. rewrite (spread_group g c E). ring.
    + assert (g = []) as ->.
      { destruct g; [reflexivity|]. rewrite len_cons in E.
        pose proof (len_nonneg g). apply Z.ltb_ge in E. lia. }
      simpl. ring.
Qed.

Lemma SST_decomposition (groups : list (list Q)) :
  SST groups == SSB groups + SSW groups.
Proof. unfold SST, SSB. apply decomposition_at. Qed.

Lemma SSB_le_SST (groups : list (list Q)) : SSB groups <= SST groups.
Proof. rewrite SST_decomposition. pose proof (SSW_nonneg groups). lra. Qed.

(** [calculate_eta_squared] without the monad. *)
Lemma calculate_eta_squared_unfold (groups : list (list Q)) :
  calculate_eta_squared groups = Return (eta_value groups).
Proof.
  unfold calculate_eta_squared, eta_value.
  rewrite pool_eta_closed, pool_f_closed. simpl.
  destruct (Py.len (List.concat groups) <? 2)%Z eqn:E; [reflexivity|].
  rewrite mean_nonempty by (intros H; rewrite H in E; discriminate).
  simpl. fold (sst_code groups) (ssb_code groups).
  destruct (Py.ltb 0 (sst_code groups)) eqn:E'; [|reflexivity].
  apply ltb_lt in E'.
  now rewrite truediv_ok by (intros H; rewrite H in E'; lra).
Qed.

(** ** Facts about the F value *)

Lemma not_neutral (groups : list (list Q)) :
  neutral_default groups = false ->
  (2 <= Py.len groups)%Z /\ (2 <= Py.len (List.concat groups))%Z /\
  (0 < df_between groups)%Z /\ df_within groups <> 0%Z.
Proof.
  unfold neutral_default, df_between. intros H.
  apply orb_false_iff in H. destruct H as [H H3].
  apply orb_false_iff in H. destruct H as [H1 H2].
  apply orb_false_iff in H3. destruct H3 as [_ H4].
  apply Z.ltb_ge in H1, H2. apply Z.eqb_neq in H4. lia.
Qed.

Lemma inject_Z_pos (z : Z) : (0 < z)%Z -> 0 < inject_Z z.
Proof. intros H. rewrite Zlt_Qlt in H. exact H. Qed.

Lemma msb_nonneg (groups : list (list Q)) :
  (0 < df_between groups)%Z -> 0 <= ssb_code groups / inject_Z (df_between groups).
Proof.
  intros H. apply Qle_shift_div_l; [now apply inject_Z_pos|].
  rewrite ssb_code_spec. pose proof (SSB_nonneg groups). lra.
Qed.

Lemma f_value_nonneg (groups : list (list Q)) :
  (0 < df_between groups)%Z -> 0 <= f_value groups.
Proof.
  intros H. unfold f_value.
  set (msw := if (0 <? df_within groups)%Z then _ else _).
  destruct (Py.ltb 0 msw) eqn:E; [|lra].
  apply ltb_lt in E. apply Qle_shift_div_l; [exact E|].
  pose proof (msb_nonneg groups H). lra.
Qed.

Lemma p_bucket_cases (f : Q) :
  p_bucket f = p_001 \/ p_bucket f = p_01 \/ p_bucket f = p_05 \/ p_bucket f = p_1.
Proof.
  unfold p_bucket.
  destruct (Py.ltb 7.0 f); [now left|].
  destruct (Py.ltb 4.0 f); [now right; left|].
  destruct (Py.ltb 2.5 f); [now right; right; left | now right; right; right].
Qed.

Lemma p_bucket_not_1 (f : Q) : ~ p_bucket f == 1.
Proof.
  destruct (p_bucket_cases f) as [-> | [-> | [-> | ->]]]; discriminate.
Qed.


#[export] Instance p_bucket_Proper : Proper (Qeq ==> eq) p_bucket.
Proof.
  intros f f' H. unfold p_bucket.
  rewrite (ltb_Proper 7.0 7.0 (Qeq_refl _) f f' H).
  rewrite (ltb_Proper 4.0 4.0 (Qeq_refl _) f f' H).
  rewrite (ltb_Proper 2.5 2.5 (Qeq_refl _) f f' H).
  reflexivity.
Qed.


(** ** Groups, non-empty groups and the pooled sample *)


Lemma concat_nonempty (groups : list (list Q)) :
  List.concat (nonempty groups) = List.concat groups.
Proof.
  induction groups as [|g groups IH]; simpl; [reflexivity|].
  destruct g as [|x g]; simpl; [exact IH | now rewrite IH].
Qed.

Lemma all_nonempty_len (groups : list (list Q)) :
  Forall (fun g => g <> []) groups ->
  (Py.len groups <= Py.len (List.concat groups))%Z.
Proof.
  induction 1 as [|g groups Hg _ IH]; [apply Z.le_refl|].
  change (List.concat (g :: groups)) with (g ++ List.concat groups).
  rewrite len_app, len_cons.
  destruct g as [|x g]; [congruence|].
  rewrite len_cons. pose proof (len_nonneg g). lia.
Qed.

Lemma few_nonempty_cases (groups : list (list Q)) :
  (Py.len (nonempty groups) < 2)%Z ->
  nonempty groups = [] \/ exists g, nonempty groups = [g].
Proof.
  destruct (nonempty groups) as [|g [|g' l]]; intros H.
  - now left.
  - right. now exists g.
  - rewrite !len_cons in H. pose proof (len_nonneg l). lia.
Qed.

(** With at most one non-empty group nothing lies between the groups. *)
Lemma SSB_few_nonempty (groups : list (list Q)) :
  (Py.len (nonempty groups) < 2)%Z -> SSB groups == 0.
Proof.
  intros H. unfold SSB, grand_mean_of. rewrite <- concat_nonempty.
  destruct (few_nonempty_cases groups H) as [-> | [g ->]]; simpl.
  - reflexivity.
  - rewrite app_nil_r. ring.
Qed.

(** Where the guard [else 1] on MSW operates: only with more groups than
    pooled values, which takes empty groups; F is then MSB. *)
Lemma f_value_negative_df_within (groups : list (list Q)) :
  (df_within groups < 0)%Z -> f_value groups == MSB groups.
Proof.
  intros H. unfold f_value, MSB.
  replace (0 <? df_within groups)%Z with false by (symmetry; apply Z.ltb_ge; lia).
  replace (Py.ltb 0 1) with true by reflexivity.
  rewrite ssb_code_spec.
  generalize (SSB groups / inject_Z (df_between groups)). intros m. field.
Qed.

(** * The range of the squares *)

Lemma Qsum_bounded (B : Q) (l : list Q) :
  Forall (fun x => Qabs x <= B) l ->
  Qabs (Qsum l) <= inject_Z (Py.len l) * B.
Proof.
  induction 1 as [|x l Hx _ IH].
  - rewrite len_nil. simpl Qsum.
    setoid_replace (inject_Z 0 * B) with 0 by ring.
    vm_compute. discriminate.
  - rewrite len_cons, inject_Z_plus. simpl Qsum.
    eapply Qle_trans; [apply Qabs_triangle|].
    setoid_replace ((inject_Z (Py.len l) + inject_Z 1) * B)
      with (B + inject_Z (Py.len l) * B) by ring.
    now apply Qplus_le_compat.
Qed.

Lemma mean_of_bounded (B : Q) (l : list Q) :
  0 <= B ->
  Forall (fun x => Qabs x <= B) l ->
  Qabs (mean_of l) <= B.
Proof.
  intros HB H. unfold mean_of.
  pose proof (Qsum_bounded B l H) as HS.
  apply Qabs_Qle_condition in HS. destruct HS as [H1 H2].
  apply Qabs_Qle_condition.
  destruct l as [|x l'].
  - split; simpl; unfold Qdiv; rewrite Qmult_0_l; lra.
  - set (l := x :: l') in *.
    assert (Hn : 0 < inject_Z (Py.len l)).
    { change 0 with (inject_Z 0). rewrite <- Zlt_Qlt.
      unfold l. rewrite len_cons. pose proof (len_nonneg l'). lia. }
    split.
    + apply Qle_shift_div_l; [exact Hn|]. lra.
    + apply Qle_shift_div_r; [exact Hn|]. lra.
Qed.

Lemma deviation_square_bounded (B x c : Q) :
  Qabs x <= B -> Qabs c <= B -> (x - c) ^ 2 <= 4 * B ^ 2.
Proof.
  intros Hx Hc.
  apply Qabs_Qle_condition in Hx, Hc.
  setoid_replace ((x - c) ^ 2) with ((x - c) * (x - c)) by (simpl; ring).
  setoid_replace (B ^ 2) with (B * B) by (simpl; ring).
  nra.
Qed.

Lemma value_bound_nonneg : 0 <= value_bound.
Proof. vm_compute. discriminate. Qed.

(** Within the bound, every number that the two functions square has its
    square at most 4e200, under 2^1023. *)
Lemma bounded_squares_in_range (groups : list (list Q)) :
  bounded_values groups -> squares_in_range groups.
Proof.
  intros H g x Hg Hx.
  assert (Hgb : Forall (fun x => Qabs x <= value_bound) g).
  { unfold bounded_values in H. rewrite Forall_forall in H. now apply H. }
  assert (Hxb : Qabs x <= value_bound).
  { rewrite Forall_forall in Hgb. now apply Hgb. }
  assert (Hall : Forall (fun x => Qabs x <= value_bound) (List.concat groups)).
  { now apply Forall_concat. }
  pose proof (mean_of_bounded _ _ value_bound_nonneg Hgb) as Hm.
  pose proof (mean_of_bounded _ _ value_bound_nonneg Hall) as HM.
  assert (Hr : 4 * value_bound ^ 2 < float_range) by (vm_compute; reflexivity).
  unfold grand_mean_of.
  repeat split; (eapply Qle_lt_trans; [|exact Hr]);
    now apply deviation_square_bounded.
Qed.

(** The float functions on the sample inputs of the claims: the results
    are those of the exact model. *)
Lemma f_statistic_f64_samples :
  F64.calculate_f_statistic
    [[10%float; 10%float; 10%float]; [20%float; 20%float; 20%float]]
  = Return (0%float, 0.1%float)
  /\ F64.calculate_f_statistic [[1%float; 2%float; 3%float]; []]
     = Return (0%float, 0.1%float).
Proof. split; vm_compute; reflexivity. Qed.

(** * The F statistic: claims *)

(** The p-values that [calculate_f_statistic] can return. *)
Lemma f_statistic_result (groups : list (list Q)) :
  exists f p,
    calculate_f_statistic groups = Return (f, p)
    /\ (p = p_001 \/ p = p_01 \/ p = p_05 \/ p = p_1 \/ p = 1).
Proof.
  rewrite calculate_f_statistic_unfold.
  destruct (neutral_default groups).
  - exists 0, 1. split; [reflexivity | now do 4 right].
  - exists (f_value groups), (p_bucket (f_value groups)).
    split; [reflexivity|].
    destruct (p_bucket_cases (f_value groups)) as [H | [H | [H | H]]];
      rewrite H; auto.
Qed.

(** On [[2^520, 0], [0, 0]] the grand mean is 2^518 and the first square
    of line 50, (2^519 - 2^518) ** 2 = 2^1036, is out of range. *)
Lemma f_statistic_raises_OverflowError :
  F64.calculate_f_statistic huge_groups = Raise OverflowError.
Proof. vm_compute. reflexivity. Qed.

(** C10, as stated, fails: the squares of lines 50 and 57 are taken in
    floats, and [** 2] raises [OverflowError] when a square is out of
    range; no guard covers it. *)
Lemma f_statistic_total_fails : ~ returns_F_and_p_f64 huge_groups.
Proof. intros (f & p & H & _). vm_compute in H. discriminate. Qed.

(** C10, amended. On every list of lists whose values are finite and of
    magnitude at most 1e100, [calculate_f_statistic] is total: every
    division is guarded, no mean is taken of an empty group and no square
    is out of range.  Its output has F >= 0 and p among 0.001, 0.01, 0.05,
    0.1 and 1, and p = 1 comes only from one of the early neutral-default
    returns (where F is 0). *)
Theorem f_statistic_total_in_range (groups : list (list Q)) :
  bounded_values groups ->
  squares_in_range groups
  /\ exists f p,
      calculate_f_statistic groups = Return (f, p)
      /\ 0 <= f
      /\ (p = p_001 \/ p = p_01 \/ p = p_05 \/ p = p_1 \/ p = 1)
      /\ (p == 1 -> neutral_default groups = true /\ f = 0).
Proof.
  intros Hb. split; [now apply bounded_squares_in_range|].
  rewrite calculate_f_statistic_unfold.
  destruct (neutral_default groups) eqn:E.
  - exists 0, 1. repeat split; try lra. now do 4 right.
  - exists (f_value groups), (p_bucket (f_value groups)).
    destruct (not_neutral groups E) as (_ & _ & Hd & _).
    split; [reflexivity|]. split; [now apply f_value_nonneg|]. split.
    + destruct (p_bucket_cases (f_value groups)) as [H | [H | [H | H]]];
        rewrite H; auto.
    + intros H. now apply p_bucket_not_1 in H.
Qed.

Lemma f_statistic_total_in_range_witness :
  squares_in_range two_spread_groups
  /\ exists f p,
      calculate_f_statistic two_spread_groups = Return (f, p)
      /\ 0 <= f
      /\ (p = p_001 \/ p = p_01 \/ p = p_05 \/ p = p_1 \/ p = 1)
      /\ (p == 1 -> neutral_default two_spread_groups = true /\ f = 0).
Proof.
  apply (f_statistic_total_in_range two_spread_groups).
  repeat constructor; vm_compute; discriminate.
Defined.



(** C1, as stated, fails: on two constant groups with different means the
    within-groups sum of squares is 0, MSW is computed as 0 / 4 = 0 and the
    guard [msw > 0] makes F equal to 0, not to MSB. *)
Lemma zero_within_gives_MSB_fails :
  ~ zero_within_gives_MSB two_constant_groups.
Proof.
  intros H.
  destruct H as (f & p & Hr & _ & Hf).
  - vm_compute. congruence.
  - repeat constructor; discriminate.
  - vm_compute. reflexivity.
  - exists [10; 10; 10], [20; 20; 20].
    split; [now left|]. split; [now right; left|].
    vm_compute. discriminate.
  - assert (E : calculate_f_statistic two_constant_groups
                = Return (0, p_1)) by (vm_compute; reflexivity).
    rewrite E in Hr. injection Hr as <- _. apply Hf. reflexivity.
Qed.

(** C1, amended. For two or more non-empty groups whose within-groups sum
    of squares is zero while group means differ, [calculate_f_statistic]
    raises nothing and returns F = 0, provided the values are finite and
    of magnitude at most 1e100 (beyond the float range the squares of line
    50 raise [OverflowError]): MSW = SSW / df_within is 0, not 1, and the
    guard [msw > 0] gives F = 0, with p = 0.1; when df_within is 0 (all
    groups are singletons) the neutral default (0, 1) is returned. *)
Theorem zero_within_gives_zero_F (groups : list (list Q)) :
  bounded_values groups ->
  (2 <= Py.len groups)%Z ->
  Forall (fun g => g <> []) groups ->
  SSW groups == 0 ->
  means_differ groups ->
  MSW groups == 0
  /\ calculate_f_statistic groups
     = Return (0, if (df_within groups =? 0)%Z then 1 else p_1).
Proof.
  intros _ H2 Hne Hssw _.
  split; [unfold MSW; rewrite Hssw; unfold Qdiv; ring|].
  rewrite calculate_f_statistic_unfold.
  pose proof (all_nonempty_len groups Hne) as Hlen.
  assert (E : neutral_default groups = (df_within groups =? 0)%Z).
  { unfold neutral_default, df_between.
    replace (Py.len groups <? 2)%Z with false by (symmetry; apply Z.ltb_ge; lia).
    replace (Py.len (List.concat groups) <? 2)%Z with false
      by (symmetry; apply Z.ltb_ge; lia).
    replace (Py.len groups - 1 =? 0)%Z with false
      by (symmetry; apply Z.eqb_neq; lia).
    reflexivity. }
  rewrite E. destruct (df_within groups =? 0)%Z eqn:Ew; [reflexivity|].
  apply Z.eqb_neq in Ew.
  assert (Hw : (0 <? df_within groups)%Z = true)
    by (apply Z.ltb_lt; unfold df_within in *; lia).
  assert (Ef : f_value groups = 0).
  { unfold f_value. rewrite Hw.
    assert (El : Py.ltb 0 (ssw_code groups / inject_Z (df_within groups)) = false).
    { apply ltb_ge. rewrite ssw_code_spec, Hssw. unfold Qdiv. lra. }
    now rewrite El. }
  rewrite Ef. reflexivity.
Qed.

Lemma zero_within_gives_zero_F_witness :
  MSW two_constant_groups == 0
  /\ calculate_f_statistic two_constant_groups = Return (0, p_1).
Proof.
  apply (zero_within_gives_zero_F two_constant_groups).
  - repeat constructor; vm_compute; discriminate.
  - vm_compute. congruence.
  - repeat constructor; discriminate.
  - vm_compute. reflexivity.
  - exists [10; 10; 10], [20; 20; 20].
    split; [now left|]. split; [now right; left|].
    vm_compute. discriminate.
Defined.

(** C2, as stated, fails: one non-empty group followed by an empty one
    passes the test [len(groups) < 2], reaches the F computation and gets
    p = 0.1, not 1. *)
Lemma few_nonempty_gives_neutral_fails :
  ~ few_nonempty_gives_neutral one_group_and_empty.
Proof.
  intros H. destruct H as (f & p & Hr & _ & Hp).
  - vm_compute. reflexivity.
  - assert (E : exists f', calculate_f_statistic one_group_and_empty = Return (f', p_1))
      by (eexists; vm_compute; reflexivity).
    destruct E as [f' E]. rewrite E in Hr. injection Hr as _ <-.
    vm_compute in Hp. discriminate.
Qed.

(** C2, amended. With fewer than two non-empty groups, and values that are
    finite and of magnitude at most 1e100 (beyond the float range the
    squares of line 57 raise [OverflowError]),
    [calculate_f_statistic] never fails and F is 0.  The p-value is 1 on
    the neutral-default returns, which cover every input of fewer than two
    groups in total (the single-group case); when empty groups bring the
    number of groups to two or more and the F computation is reached, p is
    0.1. *)
Theorem few_nonempty_F_zero (groups : list (list Q)) :
  bounded_values groups ->
  (Py.len (nonempty groups) < 2)%Z ->
  exists f p,
    calculate_f_statistic groups = Return (f, p)
    /\ f == 0
    /\ p = (if neutral_default groups then 1 else p_1)
    /\ ((Py.len groups < 2)%Z -> f = 0 /\ p = 1).
Proof.
  intros _ Hfew. rewrite calculate_f_statistic_unfold.
  destruct (neutral_default groups) eqn:E.
  - exists 0, 1. repeat split; reflexivity.
  - destruct (not_neutral groups E) as (H2 & _ & Hb & _).
    assert (Ef : f_value groups == 0).
    { unfold f_value.
      set (msw := if (0 <? df_within groups)%Z then _ else _).
      destruct (Py.ltb 0 msw) eqn:El; [|reflexivity].
      apply ltb_lt in El.
      rewrite ssb_code_spec, (SSB_few_nonempty groups Hfew).
      field.
      split; first [apply inject_Z_nonzero; lia | intros H; rewrite H in El; lra]. }
    exists (f_value groups), (p_bucket (f_value groups)).
    split; [reflexivity|]. split; [exact Ef|]. split.
    + now rewrite Ef.
    + intros H. lia.
Qed.

Lemma few_nonempty_F_zero_witness :
  exists f p,
    calculate_f_statistic one_group_and_empty = Return (f, p)
    /\ f == 0
    /\ p = (if neutral_default one_group_and_empty then 1 else p_1)
    /\ ((Py.len one_group_and_empty < 2)%Z -> f = 0 /\ p = 1).
Proof.
  apply (few_nonempty_F_zero one_group_and_empty).
  - repeat constructor; vm_compute; discriminate.
  - vm_compute. reflexivity.
Defined.

(** * Eta squared: claims *)

Lemma eta_value_spec (groups : list (list Q)) :
  (2 <= Py.len (List.concat groups))%Z ->
  (0 < SST groups -> eta_value groups == SSB groups / SST groups)
  /\ (SST groups == 0 -> eta_value groups = 0).
Proof.
  intros H. unfold eta_value.
  replace (Py.len (List.concat groups) <? 2)%Z with false
    by (symmetry; apply Z.ltb_ge; lia).
  split; intros Hs.
  - rewrite <- sst_code_spec in Hs. apply ltb_lt in Hs. rewrite Hs.
    now rewrite ssb_code_spec, sst_code_spec.
  - rewrite <- sst_code_spec in Hs.
    assert (E : Py.ltb 0 (sst_code groups) = false) by (apply ltb_ge; lra).
    now rewrite E.
Qed.

Lemma eta_value_range (groups : list (list Q)) :
  0 <= eta_value groups <= 1.
Proof.
  unfold eta_value.
  destruct (Py.len (List.concat groups) <? 2)%Z; [lra|].
  destruct (Py.ltb 0 (sst_code groups)) eqn:E; [|lra].
  apply ltb_lt in E.
  pose proof (SSB_nonneg groups). pose proof (SSB_le_SST groups).
  rewrite <- ssb_code_spec in *. rewrite <- sst_code_spec in *.
  split.
  - apply Qle_shift_div_l; lra.
  - apply Qle_shift_div_r; lra.
Qed.

(** C5. With at least two pooled values [calculate_eta_squared] returns
    SSB / SST, where SST sums (element - grand mean) squared over the
    pooled elements and SSB sums size * (group mean - grand mean) squared
    over the non-empty groups; it returns 0 when SST is 0; and the result
    lies in [0, 1]. *)
Theorem eta_squared_is_SSB_over_SST (groups : list (list Q)) :
  (2 <= Py.len (List.concat groups))%Z ->
  exists eta,
    calculate_eta_squared groups = Return eta
    /\ (0 < SST groups -> eta == SSB groups / SST groups)
    /\ (SST groups == 0 -> eta = 0)
    /\ 0 <= eta <= 1.
Proof.
  intros H. exists (eta_value groups).
  split; [apply calculate_eta_squared_unfold|].
  destruct (eta_value_spec groups H) as [H1 H2].
  split; [exact H1|]. split; [exact H2 | apply eta_value_range].
Qed.

Lemma eta_squared_is_SSB_over_SST_witness :
  exists eta,
    calculate_eta_squared two_spread_groups = Return eta
    /\ (0 < SST two_spread_groups -> eta == SSB two_spread_groups / SST two_spread_groups)
    /\ (SST two_spread_groups == 0 -> eta = 0)
    /\ 0 <= eta <= 1.
Proof.
  apply (eta_squared_is_SSB_over_SST two_spread_groups). vm_compute. congruence.
Defined.

(** ** Reordering the groups *)

Lemma Permutation_concat_groups (groups groups' : list (list Q)) :
  Permutation groups groups' ->
  Permutation (List.concat groups) (List.concat groups').
Proof.
  induction 1; simpl.
  - constructor.
  - now apply Permutation_app_head.
  - rewrite !app_assoc. apply Permutation_app_tail, Permutation_app_comm.
  - now transitivity (List.concat l').
Qed.

Lemma Permutation_nonempty (groups groups' : list (list Q)) :
  Permutation groups groups' -> Permutation (nonempty groups) (nonempty groups').
Proof.
  unfold nonempty. induction 1; simpl.
  - constructor.
  - destruct (0 <? Py.len x)%Z; [now constructor | assumption].
  - destruct (0 <? Py.len x)%Z, (0 <? Py.len y)%Z;
      try apply Permutation_refl; apply perm_swap.
  - now transitivity (filter (fun g => (0 <? Py.len g)%Z) l').
Qed.

Lemma Qsum_Permutation (l l' : list Q) : Permutation l l' -> Qsum l == Qsum l'.
Proof.
  intros H. rewrite <- (map_id l), <- (map_id l').
  now apply Qsum_map_Permutation.
Qed.

Lemma len_Permutation {A : Type} (l l' : list A) :
  Permutation l l' -> Py.len l = Py.len l'.
Proof. intros H. unfold Py.len. now rewrite (Permutation_length H). Qed.

Lemma grand_mean_Permutation (groups groups' : list (list Q)) :
  Permutation groups groups' -> grand_mean_of groups == grand_mean_of groups'.
Proof.
  intros H. apply Permutation_concat_groups in H.
  unfold grand_mean_of, mean_of.
  now rewrite (Qsum_Permutation _ _ H), (len_Permutation _ _ H).
Qed.

Lemma SST_Permutation (groups groups' : list (list Q)) :
  Permutation groups groups' -> SST groups == SST groups'.
Proof.
  intros H. unfold SST.
  rewrite (Qsum_map_Permutation _ _ _ (Permutation_concat_groups _ _ H)).
  apply Qsum_map_ext. intros x _.
  now rewrite (grand_mean_Permutation _ _ H).
Qed.

Lemma SSB_Permutation (groups groups' : list (list Q)) :
  Permutation groups groups' -> SSB groups == SSB groups'.
Proof.
  intros H. unfold SSB.
  rewrite (Qsum_map_Permutation _ _ _ (Permutation_nonempty _ _ H)).
  apply Qsum_map_ext. intros g _.
  now rewrite (grand_mean_Permutation _ _ H).
Qed.

Lemma eta_value_Permutation (groups groups' : list (list Q)) :
  Permutation groups groups' -> eta_value groups == eta_value groups'.
Proof.
  intros H. unfold eta_value.
  rewrite (len_Permutation _ _ (Permutation_concat_groups _ _ H)).
  destruct (Py.len (List.concat groups') <? 2)%Z; [reflexivity|].
  assert (Et : sst_code groups == sst_code groups')
    by (now rewrite !sst_code_spec, (SST_Permutation _ _ H)).
  assert (Eb : ssb_code groups == ssb_code groups')
    by (now rewrite !ssb_code_spec, (SSB_Permutation _ _ H)).
  rewrite (ltb_Proper 0 0 (Qeq_refl 0) _ _ Et).
  destruct (Py.ltb 0 (sst_code groups')); [|reflexivity].
  now rewrite Et, Eb.
Qed.

(** C6, as stated, fails on floats: the two sums of squares are added from
    left to right, each addition rounded, so the order of the groups
    changes the last digit.  On [[8, 8, 3], [5, 1], [7, 0, 9, 2]] the
    result is 0.15169902912621355, on the reversed list
    0.15169902912621352. *)
Lemma eta_squared_order_invariant_fails :
  ~ eta_order_invariant_f64 three_small_groups (rev three_small_groups).
Proof.
  intros H. specialize (H (Permutation_rev _)).
  apply (f_equal (fun r => match r with
                           | Return x => Prim2SF x
                           | Raise _ => S754_nan
                           end)) in H.
  vm_compute in H. discriminate.
Qed.

(** C6, amended. In exact arithmetic (no rounding), [calculate_eta_squared]
    does not depend on the order of the groups: on a list of groups and on
    any reordering of it, it returns (and does not raise) equal values. *)
Theorem eta_squared_order_invariant (groups groups' : list (list Q)) :
  Permutation groups groups' ->
  exists eta eta',
    calculate_eta_squared groups = Return eta
    /\ calculate_eta_squared groups' = Return eta'
    /\ eta == eta'.
Proof.
  intros H. exists (eta_value groups), (eta_value groups').
  rewrite !calculate_eta_squared_unfold.
  split; [reflexivity|]. split; [reflexivity|].
  now apply eta_value_Permutation.
Qed.

Lemma eta_squared_order_invariant_witness :
  exists eta eta',
    calculate_eta_squared [[1; 2]; [5]] = Return eta
    /\ calculate_eta_squared [[5]; [1; 2]] = Return eta'
    /\ eta == eta'.
Proof.
  apply (eta_squared_order_invariant [[1; 2]; [5]] [[5]; [1; 2]]).
  apply perm_swap.
Defined.

(** * The derived empathy score: claims *)

Lemma score_of_formula (r : liwc_row) :
  score_of r ==
  score_formula (second_person r) (negative_emotion r) (cognitive_processes r)
                (insight r) (first_person_singular r).
Proof. unfold score_of, score_formula. ring. Qed.

Lemma score_of_linear (a b : Q) (r r' : liwc_row) :
  score_of (liwc_add (liwc_scale a r) (liwc_scale b r')) ==
  a * score_of r + b * score_of r'.
Proof. unfold score_of, liwc_add, liwc_scale. simpl. ring. Qed.

(** Two int64 columns are added in int64, without overflow check: with
    cognitive_processes = insight = 2^62 the sum is -2^63 and the score
    is negative. *)
Lemma score_of_int64_sum_wraps :
  F64.score_of (F64.mkLiwc (F64.Int64 0) (F64.Int64 0) (F64.Int64 (2 ^ 62))
                           (F64.Int64 (2 ^ 62)) (F64.Int64 0))
  = PrimFloat.mul (F64.of_int (- 2 ^ 63)) 1.2%float.
Proof. vm_compute. reflexivity. Qed.

(** C3, as stated, fails on floats: each product and sum is rounded.  With
    the other inputs 0, raising insight from 5 to 6 moves the score from
    6.0 to 7.199999999999999, by 1.1999999999999993 and not by 1.2. *)
Lemma new_empathy_score_linear_fails :
  ~ score_linear_f64 0 0 0 5 0 1.
Proof.
  intros (_ & _ & _ & H & _). vm_compute in H.
  apply (f_equal Prim2SF) in H. vm_compute in H. discriminate.
Qed.

(** C3, amended. In exact arithmetic (no rounding, and no wrap-around of a
    sum of two int64 columns): row for row, the output carries the input
    row and new_empathy_score = second_person * 1.5 +
    negative_emotion * 1.0 + (cognitive_processes + insight) * 1.2 -
    first_person_singular * 2.0; and the score is linear in each of the
    five inputs, the others held fixed: moving one input by [d] moves the
    score by [d] times its coefficient (+1.5, +1.0, +1.2, +1.2, -2.0),
    so scaling an input [x] by [k] changes the score by (k - 1) * x times
    the coefficient. *)
Theorem new_empathy_score_linear :
  (forall df,
      Forall2 (fun r r' =>
                 liwc r' = r
                 /\ new_empathy_score r' ==
                    score_formula (second_person r) (negative_emotion r)
                                  (cognitive_processes r) (insight r)
                                  (first_person_singular r))
              df (calculate_new_empathy_score df))
  /\ (forall sp ne cp ins fps d,
        score_of (mkLiwc (sp + d) ne cp ins fps)
          == score_of (mkLiwc sp ne cp ins fps) + (3 # 2) * d
        /\ score_of (mkLiwc sp (ne + d) cp ins fps)
          == score_of (mkLiwc sp ne cp ins fps) + 1 * d
        /\ score_of (mkLiwc sp ne (cp + d) ins fps)
          == score_of (mkLiwc sp ne cp ins fps) + (6 # 5) * d
        /\ score_of (mkLiwc sp ne cp (ins + d) fps)
          == score_of (mkLiwc sp ne cp ins fps) + (6 # 5) * d
        /\ score_of (mkLiwc sp ne cp ins (fps + d))
          == score_of (mkLiwc sp ne cp ins fps) + - (2) * d)
  /\ (forall sp ne cp ins fps k,
        score_of (mkLiwc (k * sp) ne cp ins fps) - score_of (mkLiwc sp ne cp ins fps)
          == (k - 1) * sp * (3 # 2)
        /\ score_of (mkLiwc sp (k * ne) cp ins fps) - score_of (mkLiwc sp ne cp ins fps)
          == (k - 1) * ne * 1
        /\ score_of (mkLiwc sp ne (k * cp) ins fps) - score_of (mkLiwc sp ne cp ins fps)
          == (k - 1) * cp * (6 # 5)
        /\ score_of (mkLiwc sp ne cp (k * ins) fps) - score_of (mkLiwc sp ne cp ins fps)
          == (k - 1) * ins * (6 # 5)
        /\ score_of (mkLiwc sp ne cp ins (k * fps)) - score_of (mkLiwc sp ne cp ins fps)
          == (k - 1) * fps * - (2)).
Proof.
  split; [|split].
  - intros df. induction df as [|r df IH]; simpl; constructor.
    + split; [reflexivity | apply score_of_formula].
    + exact IH.
  - intros. unfold score_of. simpl. repeat split; ring.
  - intros. unfold score_of. simpl. repeat split; ring.
Qed.

(** * [analyze_data]: which records are emitted *)

(** ** The dictionary of groups *)

Lemma dict_append_keys (d : list (string * list Q)) (key : string) (v : Q) (k : string) :
  In k (map fst (dict_append d key v)) <-> k = key \/ In k (map fst d).
Proof.
  induction d as [|[k0 vs] d IH]; simpl.
  - intuition congruence.
  - destruct (String.eqb k0 key) eqn:E; simpl.
    + apply String.eqb_eq in E. subst k0. intuition congruence.
    + rewrite IH. intuition congruence.
Qed.

Lemma dict_append_NoDup (d : list (string * list Q)) (key : string) (v : Q) :
  NoDup (map fst d) -> NoDup (map fst (dict_append d key v)).
Proof.
  induction d as [|[k0 vs] d IH]; simpl; intros H.
  - constructor; [intros [] | constructor].
  - inversion H as [|? ? Hnotin Hd]; subst.
    destruct (String.eqb k0 key) eqn:E; simpl.
    + now constructor.
    + constructor; [|now apply IH].
      rewrite dict_append_keys. intros [-> | Hin]; [|contradiction].
      rewrite String.eqb_refl in E. discriminate.
Qed.

Lemma dict_append_nonempty (d : list (string * list Q)) (key : string) (v : Q) :
  Forall (fun kv => snd kv <> []) d ->
  Forall (fun kv => snd kv <> []) (dict_append d key v).
Proof.
  induction d as [|[k0 vs] d IH]; simpl; intros H.
  - constructor; [discriminate | constructor].
  - inversion H as [|? ? Hvs Hd]; subst.
    destruct (String.eqb k0 key); constructor; auto.
    simpl. destruct vs; discriminate.
Qed.

Lemma group_by_value_inv (rows : list scored_row) (d : list (string * list Q)) :
  NoDup (map fst d) ->
  Forall (fun kv => snd kv <> []) d ->
  let d' := fold_left (fun d row => dict_append d (attribute_value row) (empathy_score row))
                      rows d in
  NoDup (map fst d')
  /\ Forall (fun kv => snd kv <> []) d'
  /\ (forall k, In k (map fst d') <->
                In k (map fst d) \/ In k (map attribute_value rows)).
Proof.
  revert d. induction rows as [|row rows IH]; intros d Hn Hf; simpl.
  - repeat split; auto. intros [H | []]; exact H.
  - destruct (IH (dict_append d (attribute_value row) (empathy_score row)))
      as (H1 & H2 & H3).
    + now apply dict_append_NoDup.
    + now apply dict_append_nonempty.
    + repeat split; auto.
      * intros H. apply H3 in H. rewrite dict_append_keys in H. intuition.
      * intros H. apply H3. rewrite dict_append_keys. intuition.
Qed.

Lemma group_by_value_keys (rows : list scored_row) :
  NoDup (map fst (group_by_value rows))
  /\ Forall (fun kv => snd kv <> []) (group_by_value rows)
  /\ (forall k, In k (map fst (group_by_value rows)) <->
                In k (map attribute_value rows)).
Proof.
  destruct (group_by_value_inv rows []) as (H1 & H2 & H3);
    [constructor | constructor |].
  repeat split; auto.
  - intros H. apply H3 in H. destruct H as [[] | H]; exact H.
  - intros H. apply H3. now right.
Qed.

(** The filter of line 133 removes nothing. *)
Lemma groups_all_kept (d : list (string * list Q)) :
  Forall (fun kv => snd kv <> []) d ->
  filter (fun group => (0 <? Py.len group)%Z) (map snd d) = map snd d.
Proof.
  induction 1 as [|[k vs] d Hvs _ IH]; simpl; [reflexivity|].
  simpl in Hvs. apply len_pos_iff in Hvs. rewrite Hvs, IH. reflexivity.
Qed.

(** ** Distinct values *)

Lemma distinct_In (l : list string) (a : string) : In a (distinct l) <-> In a l.
Proof.
  induction l as [|b l IH]; simpl; [reflexivity|].
  rewrite filter_In, IH.
  destruct (String.eqb b a) eqn:E.
  - apply String.eqb_eq in E. subst. simpl. intuition discriminate.
  - apply String.eqb_neq in E. simpl. intuition congruence.
Qed.

Lemma distinct_NoDup (l : list string) : NoDup (distinct l).
Proof.
  induction l as [|b l IH]; simpl; constructor.
  - rewrite filter_In, String.eqb_refl. simpl. intros [_ H]. discriminate.
  - now apply NoDup_filter.
Qed.

Lemma NoDup_same_length (l l' : list string) :
  NoDup l -> NoDup l' -> (forall a, In a l <-> In a l') ->
  List.length l = List.length l'.
Proof.
  intros H H' Hin. apply Permutation_length.
  now apply NoDup_Permutation.
Qed.

Lemma NoDup_two (l : list string) :
  NoDup l ->
  ((2 <= List.length l)%nat <-> exists x y, In x l /\ In y l /\ x <> y).
Proof.
  intros H. split.
  - destruct l as [|x [|y l]]; simpl; try lia. intros _.
    exists x, y. repeat split; auto.
    inversion H as [|? ? Hx _]; subst. intros ->. apply Hx. now left.
  - intros (x & y & Hx & Hy & Hxy).
    destruct l as [|a [|b l]]; simpl in *; try lia; intuition congruence.
Qed.

(** ** The loop body never raises *)

Lemma guarded_variance_total (l : list Q) : exists v, guarded_variance l = Return v.
Proof.
  unfold guarded_variance, Py.variance.
  destruct (1 <? Py.len l)%Z eqn:E; [|eauto].
  apply Z.ltb_lt in E.
  replace (Py.len l <? 2)%Z with false by (symmetry; apply Z.ltb_ge; lia).
  rewrite mean_nonempty by (intros ->; discriminate).
  simpl. eauto.
Qed.

Lemma stat_loop_total (d : list (string * list Q)) (acc : list group_stat) :
  Forall (fun kv => snd kv <> []) d ->
  exists stats, for_each stat_step d acc = Return stats.
Proof.
  intros H. revert acc. induction H as [|[k vs] d Hvs _ IH]; intros acc; simpl.
  - eauto.
  - simpl in Hvs. rewrite (proj2 (len_pos_iff vs) Hvs).
    rewrite (mean_nonempty vs Hvs). simpl.
    destruct (guarded_variance_total vs) as [v ->]. simpl. apply IH.
Qed.

Lemma significance_never_three_stars (p : Q) :
  p = p_001 \/ p = p_01 \/ p = p_05 \/ p = p_1 \/ p = 1 ->
  fst (significance_of p) <> "***"%string.
Proof.
  intros [-> | [-> | [-> | [-> | ->]]]]; vm_compute; discriminate.
Qed.

Lemma group_by_value_nil : group_by_value [] = [].
Proof. reflexivity. Qed.

Lemma analyze_pair_spec (e : string) (ed : list scored_row)
      (results : list anova_record) (a : string) :
  if qualifies ed a
  then exists r, analyze_pair e ed results a = Return (results ++ [r])
                 /\ record_ok e ed a r
  else analyze_pair e ed results a = Return results.
Proof.
  unfold analyze_pair, qualifies. fold (attr_rows ed a).
  destruct (group_by_value_keys (attr_rows ed a)) as (_ & Hne & _).
  rewrite (groups_all_kept _ Hne).
  replace (Py.len (map snd (group_by_value (attr_rows ed a))))
    with (Py.len (group_by_value (attr_rows ed a)))
    by (unfold Py.len; now rewrite length_map).
  destruct (0 <? Py.len (attr_rows ed a))%Z eqn:E0.
  - destruct (2 <=? Py.len (group_by_value (attr_rows ed a)))%Z eqn:E2;
      [|reflexivity].
    destruct (f_statistic_result (map snd (group_by_value (attr_rows ed a))))
      as (f & p & Hf & Hp).
    rewrite Hf. simpl. rewrite calculate_eta_squared_unfold. simpl.
    destruct (stat_loop_total (group_by_value (attr_rows ed a)) [] Hne)
      as [stats ->]. simpl.
    apply len_pos_iff in E0.
    rewrite mean_nonempty
      by (intros H; apply map_eq_nil in H; contradiction).
    simpl.
    destruct (guarded_variance_total (map empathy_score (attr_rows ed a)))
      as [v ->]. simpl.
    pose proof (significance_never_three_stars p Hp) as Hs.
    destruct (significance_of p) as [significance sig_level].
    eexists. split; [reflexivity|].
    unfold record_ok. simpl. repeat split; try reflexivity.
    + unfold Py.len. now rewrite length_map.
    + exact Hs.
  - assert (attr_rows ed a = []) as ->.
    { destruct (attr_rows ed a); [reflexivity|].
      rewrite len_cons in E0. pose proof (len_nonneg l).
      apply Z.ltb_ge in E0. lia. }
    reflexivity.
Qed.

Lemma analyze_pair_loop (e : string) (ed : list scored_row) (attrs : list string)
      (results : list anova_record) :
  exists rs,
    for_each (analyze_pair e ed) attrs results = Return (results ++ rs)
    /\ Forall2 (record_ok e ed) (filter (qualifies ed) attrs) rs.
Proof.
  revert results. induction attrs as [|a attrs IH]; intros results; simpl.
  - exists []. now rewrite app_nil_r.
  - pose proof (analyze_pair_spec e ed results a) as H.
    destruct (qualifies ed a).
    + destruct H as (r & -> & Hr). simpl.
      destruct (IH (results ++ [r])) as (rs & -> & Hrs).
      exists (r :: rs). rewrite <- app_assoc. split; [reflexivity|].
      now constructor.
    + rewrite H. simpl. apply IH.
Qed.

Lemma analyze_type_loop (attrs : list string) (data : list scored_row)
      (types : list string) (results : list anova_record) :
  exists rs,
    for_each (analyze_type attrs data) types results = Return (results ++ rs)
    /\ Forall2 (fun pr r => record_ok (fst pr) (type_rows data (fst pr)) (snd pr) r)
               (emitted_pairs attrs data types) rs.
Proof.
  revert results. induction types as [|e types IH]; intros results; simpl.
  - exists []. now rewrite app_nil_r.
  - unfold analyze_type at 1. fold (type_rows data e).
    destruct (analyze_pair_loop e (type_rows data e) attrs results)
      as (rs1 & -> & H1). simpl.
    destruct (IH (results ++ rs1)) as (rs2 & -> & H2).
    exists (rs1 ++ rs2). rewrite <- app_assoc. split; [reflexivity|].
    unfold emitted_pairs. simpl. apply Forall2_app; [|exact H2].
    clear -H1. induction H1; simpl; constructor; auto.
Qed.

(** ** Which pairs qualify *)

Lemma in_attr_rows (data : list scored_row) (e a : string) (r : scored_row) :
  In r (attr_rows (type_rows data e) a) <-> In r data /\ in_pair e a r.
Proof.
  unfold attr_rows, type_rows, in_pair.
  rewrite !filter_In, !String.eqb_eq. tauto.
Qed.

Lemma attr_rows_filter (data : list scored_row) (e a : string) :
  attr_rows (type_rows data e) a =
  filter (fun row => String.eqb (empathy_type row) e
                     && String.eqb (attribute_type row) a) data.
Proof.
  unfold attr_rows, type_rows.
  induction data as [|r data IH]; simpl; [reflexivity|].
  destruct (String.eqb (empathy_type r) e); simpl; [|exact IH].
  destruct (String.eqb (attribute_type r) a); now rewrite IH.
Qed.

Lemma qualifies_iff (data : list scored_row) (e a : string) :
  qualifies (type_rows data e) a = true <-> has_two_groups data e a.
Proof.
  unfold qualifies, has_two_groups.
  destruct (group_by_value_keys (attr_rows (type_rows data e) a)) as (Hn & _ & Hk).
  rewrite Z.leb_le.
  assert (Hlen : (2 <= Py.len (group_by_value (attr_rows (type_rows data e) a)))%Z
                 <-> (2 <= List.length
                            (map fst (group_by_value (attr_rows (type_rows data e) a))))%nat).
  { unfold Py.len. rewrite length_map. lia. }
  rewrite Hlen, (NoDup_two _ Hn). split.
  - intros (x & y & Hx & Hy & Hxy).
    apply Hk, in_map_iff in Hx. apply Hk, in_map_iff in Hy.
    destruct Hx as (r1 & <- & H1). destruct Hy as (r2 & <- & H2).
    apply in_attr_rows in H1, H2.
    exists r1, r2. tauto.
  - intros (r1 & r2 & H1 & H2 & P1 & P2 & Hd).
    exists (attribute_value r1), (attribute_value r2).
    repeat split; [| |exact Hd]; apply Hk, in_map, in_attr_rows; tauto.
Qed.

Lemma emitted_pairs_In (attrs : list string) (data : list scored_row)
      (types : list string) (e a : string) :
  In (e, a) (emitted_pairs attrs data types) <->
  In e types /\ In a attrs /\ qualifies (type_rows data e) a = true.
Proof.
  unfold emitted_pairs. rewrite in_flat_map. split.
  - intros (e' & He & H). apply in_map_iff in H.
    destruct H as (a' & Heq & Ha). injection Heq as -> ->.
    apply filter_In in Ha. tauto.
  - intros (He & Ha & Hq). exists e. split; [exact He|].
    apply in_map, filter_In. tauto.
Qed.

Lemma NoDup_map_pair (e : string) (l : list string) :
  NoDup l -> NoDup (map (pair e) l).
Proof.
  induction 1 as [|a l Ha _ IH]; simpl; constructor; [|exact IH].
  intros H. apply in_map_iff in H. destruct H as (b & Heq & Hb).
  injection Heq as ->. contradiction.
Qed.

Lemma emitted_pairs_NoDup (attrs : list string) (data : list scored_row)
      (types : list string) :
  NoDup attrs -> NoDup types -> NoDup (emitted_pairs attrs data types).
Proof.
  intros Ha Ht. induction Ht as [|e types He _ IH].
  - constructor.
  - change (emitted_pairs attrs data (e :: types))
      with (map (pair e) (filter (qualifies (type_rows data e)) attrs)
            ++ emitted_pairs attrs data types).
    apply NoDup_app; [| exact IH |].
    + now apply NoDup_map_pair, NoDup_filter.
    + intros [e' a'] H1 H2.
      apply in_map_iff in H1. destruct H1 as (a0 & Heq & _).
      injection Heq as <- <-.
      apply emitted_pairs_In in H2. tauto.
Qed.

Lemma empathy_types_NoDup : NoDup empathy_types.
Proof.
  unfold empathy_types.
  repeat constructor; simpl; intuition discriminate.
Qed.

Lemma record_ok_reports (data : list scored_row) (e a : string) (r : anova_record) :
  record_ok e (type_rows data e) a r -> reports data (e, a) r.
Proof.
  unfold record_ok, reports. simpl. intros (H1 & H2 & H3 & H4 & _).
  rewrite <- attr_rows_filter.
  repeat split; auto.
  rewrite H4. unfold Py.len. f_equal.
  destruct (group_by_value_keys (attr_rows (type_rows data e) a)) as (Hn & _ & Hk).
  rewrite <- (length_map fst).
  apply NoDup_same_length; [exact Hn | apply distinct_NoDup |].
  intros k. rewrite Hk, distinct_In. reflexivity.
Qed.

Lemma distinct_lists_attribute_types (data : list scored_row) :
  lists_attribute_types (distinct (map attribute_type data)) data.
Proof.
  split; [apply distinct_NoDup | intros a; apply distinct_In].
Qed.

(** * [analyze_data]: claims *)

(** C7, as stated, fails: the script examines three empathy types only.
    Two rows of another empathy type, with two attribute values, make a
    pair with two non-empty groups, and the result is empty. *)
Lemma analyze_data_one_record_per_pair_fails :
  ~ one_record_for_every_pair other_type_data.
Proof.
  intros (emitted & results & Hrun & _ & Hrec & Hpairs).
  assert (E : analyze_data other_type_data = Return []) by (vm_compute; reflexivity).
  rewrite E in Hrun. injection Hrun as <-.
  inversion Hrec; subst.
  apply (Hpairs "other"%string "age"%string).
  exists (mkRow "other" "age" "old" 1), (mkRow "other" "age" "young" 2).
  unfold in_pair. simpl. intuition discriminate.
Qed.

(** C7, amended. On rows whose attribute type is ASCII text and whose score
    is finite and of magnitude at most 1e100, and whatever the order in
    which the set of attribute types is listed, [analyze_data] raises
    nothing and its result holds exactly one record for each pair (empathy
    type, attribute type) that has at least two non-empty attribute-value
    groups and whose empathy type is affective, cognitive or motivational;
    every other pair gets no record. *)
Theorem analyze_data_one_record_per_examined_pair
        (attribute_types : list string) (data : list scored_row) :
  lists_attribute_types attribute_types data ->
  rows_in_range data ->
  exists emitted results,
    analyze_data_in attribute_types data = Return results
    /\ NoDup emitted
    /\ Forall2 (reports data) emitted results
    /\ (forall e a, In (e, a) emitted <->
                    (e = "affective" \/ e = "cognitive" \/ e = "motivational")%string
                    /\ has_two_groups data e a).
Proof.
  intros [Hnd Hin] _.
  destruct (analyze_type_loop attribute_types data empathy_types [])
    as (rs & Hrun & Hrs).
  exists (emitted_pairs attribute_types data empathy_types), rs.
  split; [exact Hrun|]. split; [|split].
  - apply emitted_pairs_NoDup; [exact Hnd | apply empathy_types_NoDup].
  - clear -Hrs. induction Hrs as [|[e a] r prs rs H _ IH]; constructor; auto.
    now apply record_ok_reports.
  - intros e a. rewrite emitted_pairs_In, qualifies_iff.
    assert (He : In e empathy_types <->
                 (e = "affective" \/ e = "cognitive" \/ e = "motivational")%string).
    { unfold empathy_types. simpl. intuition congruence. }
    rewrite He. split; [tauto|].
    intros [He' H2]. repeat split; auto.
    destruct H2 as (r1 & _ & H1 & _ & [_ <-] & _).
    apply Hin. now apply in_map.
Qed.

Lemma analyze_data_one_record_per_examined_pair_witness :
  exists emitted results,
    analyze_data sample_data = Return results
    /\ NoDup emitted
    /\ Forall2 (reports sample_data) emitted results
    /\ (forall e a, In (e, a) emitted <->
                    (e = "affective" \/ e = "cognitive" \/ e = "motivational")%string
                    /\ has_two_groups sample_data e a).
Proof.
  apply (analyze_data_one_record_per_examined_pair
           (distinct (map attribute_type sample_data)) sample_data).
  - split.
    + vm_compute. repeat constructor; simpl; intuition discriminate.
    + intros a. vm_compute. tauto.
  - repeat constructor; vm_compute; discriminate.
Defined.

(** C9. No record emitted by [analyze_data] carries the marker "***": the
    p-values that [calculate_f_statistic] returns are 0.001 at the least,
    and the marker is given on the strict test p < 0.001. *)
Theorem analyze_data_never_three_stars
        (attribute_types : list string) (data : list scored_row) :
  exists results,
    analyze_data_in attribute_types data = Return results
    /\ Forall (fun r => Significance r <> "***"%string) results.
Proof.
  destruct (analyze_type_loop attribute_types data empathy_types [])
    as (rs & Hrun & Hrs).
  exists rs. split; [exact Hrun|].
  clear -Hrs. induction Hrs as [|pr r prs rs H _ IH]; constructor; auto.
  apply H.
Qed.

(** * [load_data]: claims *)

Lemma dict_get_raises (d : dict) (key : string) (e : exn) :
  dict_get d key = Raise e -> e = KeyError.
Proof.
  induction d as [|[k v] d IH]; simpl.
  - congruence.
  - destruct (String.eqb k key); [discriminate | exact IH].
Qed.

Section LoadDataFacts.

Variable parse_float : string -> option Q.

Lemma load_row_spec (data : list dict) (row : dict) :
  field_not_None row ->
  load_row parse_float data row = Return (data ++ parsed_row parse_float row).
Proof.
  unfold field_not_None, load_row, parsed_row. intros H.
  destruct (dict_get row "empathy_score") as [[s | | x] | e] eqn:E; simpl.
  - destruct (parse_float s); simpl; [reflexivity | now rewrite app_nil_r].
  - congruence.
  - reflexivity.
  - apply dict_get_raises in E. subst e. simpl. now rewrite app_nil_r.
Qed.

Lemma load_loop_spec (reader : list dict) (data : list dict) :
  Forall field_not_None reader ->
  for_each (load_row parse_float) reader data
  = Return (data ++ flat_map (parsed_row parse_float) reader).
Proof.
  intros H. revert data. induction H as [|row reader Hrow _ IH]; intros data; simpl.
  - now rewrite app_nil_r.
  - rewrite (load_row_spec data row Hrow). simpl.
    rewrite IH. now rewrite <- app_assoc.
Qed.

(** Without short lines, [load_data] does what C8 says: it returns the
    rows whose field parses, converted, and drops the others silently. *)
Lemma load_data_without_short_lines (reader : list dict) :
  Forall field_not_None reader ->
  load_data parse_float reader = Return (flat_map (parsed_row parse_float) reader).
Proof. intros H. unfold load_data. now rewrite load_loop_spec. Qed.

(** A header without the column: every row is dropped, nothing raised. *)
Lemma load_row_missing_column (data : list dict) (row : dict) :
  dict_get row "empathy_score" = Raise KeyError ->
  load_row parse_float data row = Return data.
Proof. intros H. unfold load_row. now rewrite H. Qed.

(** A row whose field is [None] is not dropped: [float(None)] raises
    [TypeError], which the [except] clause does not catch, and the loop
    stops there. *)
Lemma load_row_None (data : list dict) (row : dict) :
  dict_get row "empathy_score" = Return NoneValue ->
  load_row parse_float data row = Raise TypeError.
Proof. intros H. unfold load_row. now rewrite H. Qed.

End LoadDataFacts.

(** C8, at a failing input. The second data line of [short_line_file] has
    no [empathy_score] field; [csv.DictReader] fills it with [None] and
    [load_data] raises [TypeError] instead of dropping the row, whatever
    texts the built-in [float] accepts. *)
Theorem load_data_short_line_raises (parse_float : string -> option Q) :
  dict_get (nth 1 (DictReader short_line_file) []) "empathy_score" = Return NoneValue
  /\ load_data parse_float (DictReader short_line_file) = Raise TypeError.
Proof.
  split; [reflexivity|].
  unfold load_data. cbn. unfold load_row. cbn.
  destruct (parse_float "3.5"%string); reflexivity.
Qed.

(** * Further properties of the two statistics *)

(** ** Lengths and empty pools *)

Lemma len_map {A B : Type} (f : A -> B) (l : list A) : Py.len (map f l) = Py.len l.
Proof. unfold Py.len. now rewrite length_map. Qed.

Lemma nonempty_concat_nil (groups : list (list Q)) :
  List.concat groups = [] -> nonempty groups = [].
Proof.
  induction groups as [|g groups IH]; simpl; [reflexivity|].
  intros H. apply app_eq_nil in H. destruct H as [-> H]. simpl. now apply IH.
Qed.

(** ** Equal group means *)

Lemma Qsum_concat (groups : list (list Q)) :
  Qsum (List.concat groups) == Qsum (map Qsum groups).
Proof.
  induction groups as [|g groups IH]; simpl; [reflexivity|].
  now rewrite Qsum_app, IH.
Qed.

Lemma len_concat (groups : list (list Q)) :
  inject_Z (Py.len (List.concat groups))
  == Qsum (map (fun g => inject_Z (Py.len g)) groups).
Proof.
  induction groups as [|g groups IH]; simpl; [reflexivity|].
  now rewrite len_app, inject_Z_plus, IH.
Qed.

Lemma Qsum_of_mean (g : list Q) (m : Q) :
  g <> [] -> mean_of g == m -> Qsum g == inject_Z (Py.len g) * m.
Proof.
  intros Hg Hm. rewrite <- Hm. unfold mean_of. field.
  apply inject_Z_nonzero. destruct g; [congruence|].
  rewrite len_cons. pose proof (len_nonneg g). lia.
Qed.

Lemma grand_mean_of_equal_means (groups : list (list Q)) (m : Q) :
  (forall g, In g groups -> g <> [] -> mean_of g == m) ->
  List.concat groups <> [] ->
  grand_mean_of groups == m.
Proof.
  intros Hm Hne. unfold grand_mean_of, mean_of.
  assert (Hn : ~ inject_Z (Py.len (List.concat groups)) == 0).
  { apply inject_Z_nonzero. destruct (List.concat groups); [congruence|].
    rewrite len_cons. pose proof (len_nonneg l). lia. }
  assert (E : Qsum (List.concat groups)
              == inject_Z (Py.len (List.concat groups)) * m).
  { rewrite Qsum_concat, len_concat. clear Hn Hne.
    induction groups as [|g groups IH]; simpl; [ring|].
    rewrite IH by (intros g' Hg'; apply Hm; now right).
    destruct g as [|x g].
    - change (Py.len (@nil Q)) with 0%Z. change (inject_Z 0) with 0. simpl. ring.
    - rewrite (Qsum_of_mean (x :: g) m); [ring | discriminate |].
      apply Hm; [now left | discriminate]. }
  rewrite E. field. exact Hn.
Qed.

Lemma SSB_equal_means (groups : list (list Q)) (m : Q) :
  (forall g, In g groups -> g <> [] -> mean_of g == m) -> SSB groups == 0.
Proof.
  intros Hm. unfold SSB.
  destruct (List.concat groups) eqn:E.
  - now rewrite (nonempty_concat_nil groups E).
  - assert (HG : grand_mean_of groups == m).
    { apply grand_mean_of_equal_means; [exact Hm | rewrite E; discriminate]. }
    rewrite (Qsum_map_ext _ (fun _ => 0)); [|].
    + clear. induction (nonempty groups); simpl; [reflexivity | rewrite IHl; ring].
    + intros g Hg. apply filter_In in Hg. destruct Hg as [Hin Hpos].
      apply len_pos_iff in Hpos. rewrite (Hm g Hin Hpos), HG. ring.
Qed.

Lemma f_value_zero_between (groups : list (list Q)) :
  SSB groups == 0 -> f_value groups == 0.
Proof.
  intros H. unfold f_value.
  set (msw := if (0 <? df_within groups)%Z then _ else _).
  destruct (Py.ltb 0 msw); [|reflexivity].
  rewrite ssb_code_spec, H. unfold Qdiv. ring.
Qed.

Lemma eta_value_zero_between (groups : list (list Q)) :
  SSB groups == 0 -> eta_value groups == 0.
Proof.
  intros H. unfold eta_value.
  destruct (Py.len (List.concat groups) <? 2)%Z; [reflexivity|].
  destruct (Py.ltb 0 (sst_code groups)); [|reflexivity].
  rewrite ssb_code_spec, H. unfold Qdiv. ring.
Qed.

(** X5. When the values are finite and of magnitude at most 1e100 and all
    the non-empty groups have the same mean (in particular when at most
    one group is non-empty) nothing is raised, F is 0 with p equal to 0.1,
    or to 1 on a neutral-default return, and eta squared is 0.  (On
    floats too: [statistics.mean] rounds the exact mean once, so equal
    means give equal floats, every deviation of a group mean from the
    grand mean is exactly 0, and within the bound no square overflows.) *)
Theorem equal_means_no_effect (groups : list (list Q)) (m : Q) :
  bounded_values groups ->
  (forall g, In g groups -> g <> [] -> mean_of g == m) ->
  exists f p eta,
    calculate_f_statistic groups = Return (f, p)
    /\ calculate_eta_squared groups = Return eta
    /\ f == 0
    /\ p = (if neutral_default groups then 1 else p_1)
    /\ eta == 0.
Proof.
  intros _ Hm. pose proof (SSB_equal_means groups m Hm) as HB.
  rewrite calculate_f_statistic_unfold, calculate_eta_squared_unfold.
  destruct (neutral_default groups).
  - exists 0, 1, (eta_value groups). repeat split; try reflexivity.
    now apply eta_value_zero_between.
  - exists (f_value groups), (p_bucket (f_value groups)), (eta_value groups).
    pose proof (f_value_zero_between groups HB) as Hf.
    repeat split; auto.
    + now rewrite Hf.
    + now apply eta_value_zero_between.
Qed.

Lemma equal_means_no_effect_witness :
  exists f p eta,
    calculate_f_statistic [[1; 3]; [2]; [0; 4]] = Return (f, p)
    /\ calculate_eta_squared [[1; 3]; [2]; [0; 4]] = Return eta
    /\ f == 0
    /\ p = (if neutral_default [[1; 3]; [2]; [0; 4]] then 1 else p_1)
    /\ eta == 0.
Proof.
  apply (equal_means_no_effect [[1; 3]; [2]; [0; 4]] 2).
  - repeat constructor; vm_compute; discriminate.
  - intros g [<- | [<- | [<- | []]]] _; vm_compute; reflexivity.
Defined.

(** * Further properties of [analyze_data] *)

(** ** The record in full *)

Lemma stat_loop_closed (d : list (string * list Q)) (acc : list group_stat) :
  Forall (fun kv => snd kv <> []) d ->
  exists stats,
    for_each stat_step d acc = Return (acc ++ stats)
    /\ map stat_value stats = map fst d
    /\ map stat_n stats = map Py.len (map snd d)
    /\ map stat_mean stats = map mean_val (map snd d).
Proof.
  intros H. revert acc. induction H as [|[k vs] d Hvs _ IH]; intros acc; simpl.
  - exists []. now rewrite app_nil_r.
  - simpl in Hvs. rewrite (proj2 (len_pos_iff vs) Hvs).
    rewrite (mean_nonempty vs Hvs). simpl.
    destruct (guarded_variance_total vs) as [v ->]. simpl.
    destruct (IH (acc ++ [mkStat k (Py.len vs) (mean_val vs) v]))
      as (stats & -> & H1 & H2 & H3).
    exists (mkStat k (Py.len vs) (mean_val vs) v :: stats).
    rewrite <- app_assoc. simpl. rewrite H1, H2, H3. auto.
Qed.

Lemma analyze_pair_detail (e : string) (ed : list scored_row)
      (results : list anova_record) (a : string) :
  if qualifies ed a
  then exists r, analyze_pair e ed results a = Return (results ++ [r])
                 /\ record_detail e ed a r
  else analyze_pair e ed results a = Return results.
Proof.
  unfold analyze_pair, qualifies. fold (attr_rows ed a).
  destruct (group_by_value_keys (attr_rows ed a)) as (_ & Hne & _).
  rewrite (groups_all_kept _ Hne). fold (pair_groups ed a).
  replace (Py.len (pair_groups ed a))
    with (Py.len (group_by_value (attr_rows ed a)))
    by (unfold pair_groups; now rewrite len_map).
  destruct (0 <? Py.len (attr_rows ed a))%Z eqn:E0.
  - destruct (2 <=? Py.len (group_by_value (attr_rows ed a)))%Z eqn:E2;
      [|reflexivity].
    destruct (f_statistic_result (pair_groups ed a)) as (f & p & Hf & _).
    rewrite Hf. simpl. rewrite calculate_eta_squared_unfold. simpl.
    destruct (stat_loop_closed (group_by_value (attr_rows ed a)) [] Hne)
      as (stats & -> & S1 & S2 & S3). simpl.
    apply len_pos_iff in E0.
    rewrite mean_nonempty
      by (intros H; apply map_eq_nil in H; contradiction).
    simpl.
    destruct (guarded_variance_total (map empathy_score (attr_rows ed a)))
      as [v ->]. simpl.
    destruct (significance_of p) as [significance sig_level] eqn:Es.
    eexists. split; [reflexivity|].
    exists f, p, (eta_value (pair_groups ed a)).
    simpl. rewrite Es, len_map.
    repeat split; auto using calculate_eta_squared_unfold.
    unfold pair_groups. now rewrite len_map.
  - assert (attr_rows ed a = []) as ->.
    { destruct (attr_rows ed a); [reflexivity|].
      rewrite len_cons in E0. pose proof (len_nonneg l).
      apply Z.ltb_ge in E0. lia. }
    reflexivity.
Qed.

(** The two loops, for any property that the loop body gives the record. *)
Lemma analyze_data_loops
      (P : string -> list scored_row -> string -> anova_record -> Prop) :
  (forall e ed results a,
      if qualifies ed a
      then exists r, analyze_pair e ed results a = Return (results ++ [r])
                     /\ P e ed a r
      else analyze_pair e ed results a = Return results) ->
  forall attrs data,
  exists results,
    analyze_data_in attrs data = Return results
    /\ Forall2 (fun pr r => P (fst pr) (type_rows data (fst pr)) (snd pr) r)
               (emitted_pairs attrs data empathy_types) results.
Proof.
  intros Hbody attrs data. unfold analyze_data_in.
  change (emitted_pairs attrs data empathy_types)
    with (emitted_pairs attrs data empathy_types).
  assert (Hinner : forall e ed l results,
    exists rs,
      for_each (analyze_pair e ed) l results = Return (results ++ rs)
      /\ Forall2 (P e ed) (filter (qualifies ed) l) rs).
  { intros e ed l. induction l as [|a l IH]; intros results; simpl.
    - exists []. now rewrite app_nil_r.
    - pose proof (Hbody e ed results a) as H.
      destruct (qualifies ed a).
      + destruct H as (r & -> & Hr). simpl.
        destruct (IH (results ++ [r])) as (rs & -> & Hrs).
        exists (r :: rs). rewrite <- app_assoc. split; [reflexivity|].
        now constructor.
      + rewrite H. simpl. apply IH. }
  assert (Houter : forall types results,
    exists rs,
      for_each (analyze_type attrs data) types results = Return (results ++ rs)
      /\ Forall2 (fun pr r => P (fst pr) (type_rows data (fst pr)) (snd pr) r)
                 (emitted_pairs attrs data types) rs).
  { induction types as [|e types IH]; intros results; simpl.
    - exists []. now rewrite app_nil_r.
    - unfold analyze_type at 1. fold (type_rows data e).
      destruct (Hinner e (type_rows data e) attrs results) as (rs1 & -> & H1).
      simpl.
      destruct (IH (results ++ rs1)) as (rs2 & -> & H2).
      exists (rs1 ++ rs2). rewrite <- app_assoc. split; [reflexivity|].
      unfold emitted_pairs. simpl. apply Forall2_app; [|exact H2].
      clear -H1. induction H1; simpl; constructor; auto. }
  destruct (Houter empathy_types []) as (rs & Hrun & Hrs).
  exists rs. split; [exact Hrun | exact Hrs].
Qed.

Lemma analyze_data_detail (attrs : list string) (data : list scored_row) :
  exists results,
    analyze_data_in attrs data = Return results
    /\ Forall2 (fun pr r => record_detail (fst pr) (type_rows data (fst pr)) (snd pr) r)
               (emitted_pairs attrs data empathy_types) results.
Proof. apply analyze_data_loops. apply analyze_pair_detail. Qed.

Lemma Forall2_Forall_r {A B : Type} (R : A -> B -> Prop) (P : B -> Prop)
      (l : list A) (l' : list B) :
  Forall2 R l l' ->
  (forall x y, In x l -> R x y -> P y) ->
  Forall P l'.
Proof.
  induction 1 as [|x y l l' Hxy _ IH]; intros H; constructor.
  - apply (H x y); [now left | exact Hxy].
  - apply IH. intros x' y' Hin. apply H. now right.
Qed.

(** ** The marker as a function of F *)

Lemma marker_of_result (groups : list (list Q)) (f p : Q) :
  calculate_f_statistic groups = Return (f, p) ->
  marker_rule f (fst (significance_of p)).
Proof.
  rewrite calculate_f_statistic_unfold. intros H. injection H as Hfp.
  unfold marker_rule.
  destruct (neutral_default groups).
  - injection Hfp as <- <-.
    repeat split; intros; try reflexivity; exfalso; lra.
  - injection Hfp as <- <-. unfold p_bucket.
    destruct (Py.ltb 7.0 (f_value groups)) eqn:E7;
      [|destruct (Py.ltb 4.0 (f_value groups)) eqn:E4;
        [|destruct (Py.ltb 2.5 (f_value groups)) eqn:E2]];
      repeat match goal with
        | H : Py.ltb _ _ = true |- _ => apply ltb_lt in H
        | H : Py.ltb _ _ = false |- _ => apply ltb_ge in H
        end;
      repeat split; intros; try reflexivity; exfalso; lra.
Qed.

(** X6. In every record of [analyze_data] the marker follows from the F
    value of the record's groups: "**" above 7, "*" above 4 and up to 7,
    "ns" up to 4.  An F between 2.5 and 4, whose p-value is 0.05, is
    reported "ns". *)
Theorem analyze_data_marker_by_F (attrs : list string) (data : list scored_row) :
  exists results,
    analyze_data_in attrs data = Return results
    /\ Forall2 (fun pr r =>
                  exists f p,
                    calculate_f_statistic
                      (pair_groups (type_rows data (fst pr)) (snd pr))
                    = Return (f, p)
                    /\ F_Statistic r = round f 3
                    /\ marker_rule f (Significance r))
               (emitted_pairs attrs data empathy_types) results.
Proof.
  destruct (analyze_data_detail attrs data) as (results & Hrun & H).
  exists results. split; [exact Hrun|].
  clear Hrun. induction H as [|pr r prs rs Hd _ IH]; constructor; [|exact IH].
  destruct Hd as (f & p & eta & Hf & _ & _ & _ & HF & _ & Hs & _).
  exists f, p. split; [exact Hf|]. split; [exact HF|].
  replace (Significance r) with (fst (significance_of p))
    by (now rewrite <- Hs).
  exact (marker_of_result _ f p Hf).
Qed.

(** ** Counts in a record *)

Lemma Zsum_app (l l' : list Z) : Zsum (l ++ l') = (Zsum l + Zsum l')%Z.
Proof. induction l as [|n l IH]; simpl; [reflexivity | rewrite IH; lia]. Qed.

Lemma dict_append_total (d : list (string * list Q)) (key : string) (v : Q) :
  Zsum (map Py.len (map snd (dict_append d key v)))
  = (Zsum (map Py.len (map snd d)) + 1)%Z.
Proof.
  induction d as [|[k vs] d IH]; simpl.
  - reflexivity.
  - destruct (String.eqb k key); simpl.
    + rewrite len_app. change (Py.len [v]) with 1%Z. lia.
    + rewrite IH. lia.
Qed.

Lemma group_by_value_total (rows : list scored_row) (d : list (string * list Q)) :
  Zsum (map Py.len (map snd
         (fold_left (fun d row => dict_append d (attribute_value row) (empathy_score row))
                    rows d)))
  = (Zsum (map Py.len (map snd d)) + Py.len rows)%Z.
Proof.
  revert d. induction rows as [|row rows IH]; intros d; simpl.
  - change (Py.len (@nil scored_row)) with 0%Z. lia.
  - rewrite IH, dict_append_total, len_cons. lia.
Qed.

Lemma pair_groups_total (ed : list scored_row) (a : string) :
  Zsum (map Py.len (pair_groups ed a)) = Py.len (attr_rows ed a).
Proof.
  unfold pair_groups, group_by_value. rewrite group_by_value_total. reflexivity.
Qed.

Lemma Zsum_at_least (groups : list (list Q)) :
  Forall (fun g => g <> []) groups ->
  (Py.len groups <= Zsum (map Py.len groups))%Z
  /\ Forall (fun n => (1 <= n)%Z) (map Py.len groups).
Proof.
  induction 1 as [|g groups Hg _ [IH1 IH2]]; simpl.
  - split; [apply Z.le_refl | constructor].
  - assert (1 <= Py.len g)%Z.
    { destruct g; [congruence|]. rewrite len_cons.
      pose proof (len_nonneg g). lia. }
    rewrite len_cons. split; [lia | now constructor].
Qed.

Lemma pair_groups_nonempty (ed : list scored_row) (a : string) :
  Forall (fun g => g <> []) (pair_groups ed a).
Proof.
  unfold pair_groups.
  destruct (group_by_value_keys (attr_rows ed a)) as (_ & H & _).
  induction H; simpl; constructor; auto.
Qed.

(** X7. In every record of [analyze_data], [Groups] is at least 2 and at
    most [Total_N], it is the number of entries of the group statistics,
    every group has at least one row, and the group sizes add up to
    [Total_N]. *)
Theorem analyze_data_counts (attrs : list string) (data : list scored_row) :
  exists results,
    analyze_data_in attrs data = Return results
    /\ Forall (fun r =>
                 (2 <= Groups r <= Total_N r)%Z
                 /\ Groups r = Py.len (Group_Stats r)
                 /\ Forall (fun s => (1 <= stat_n s)%Z) (Group_Stats r)
                 /\ Total_N r = Zsum (map stat_n (Group_Stats r)))
              results.
Proof.
  destruct (analyze_data_detail attrs data) as (results & Hrun & H).
  exists results. split; [exact Hrun|].
  apply (Forall2_Forall_r _ _ _ _ H). intros [e a] r Hin Hd. simpl in Hd.
  apply emitted_pairs_In in Hin. destruct Hin as (_ & _ & Hq).
  destruct Hd as (f & p & eta & _ & _ & _ & _ & _ & _ & _ & _ & _
                  & HN & _ & HG & Hv & Hn & _).
  set (ed := type_rows data e) in *.
  destruct (Zsum_at_least _ (pair_groups_nonempty ed a)) as [Hle Hall].
  pose proof (pair_groups_total ed a) as Htot.
  unfold qualifies in Hq. apply Z.leb_le in Hq.
  assert (Hlen : Py.len (pair_groups ed a)
                 = Py.len (group_by_value (attr_rows ed a)))
    by (unfold pair_groups; now rewrite len_map).
  repeat split.
  - lia.
  - lia.
  - rewrite HG. rewrite <- (len_map stat_n), Hn. now rewrite len_map.
  - rewrite <- Hn in Hall. clear -Hall.
    induction (Group_Stats r); simpl in *; constructor;
      inversion Hall; subst; auto.
  - rewrite Hn. lia.
Qed.

(** ** Rows of other empathy types *)

Lemma for_each_ext {S A : Type} (f g : S -> A -> result S) (l : list A) (st : S) :
  (forall s a, In a l -> f s a = g s a) ->
  for_each f l st = for_each g l st.
Proof.
  revert st. induction l as [|a l IH]; intros st H; simpl; [reflexivity|].
  rewrite (H st a) by (now left).
  destruct (g st a); simpl; [|reflexivity].
  apply IH. intros s b Hb. apply H. now right.
Qed.

Lemma type_rows_known (data : list scored_row) (e : string) :
  In e empathy_types ->
  type_rows (filter known_type data) e = type_rows data e.
Proof.
  intros He. unfold type_rows.
  induction data as [|r data IH]; simpl; [reflexivity|].
  destruct (String.eqb (empathy_type r) e) eqn:E.
  - assert (K : known_type r = true).
    { unfold known_type. apply existsb_exists. exists e. split; assumption. }
    rewrite K. simpl. now rewrite E, IH.
  - destruct (known_type r); simpl; [rewrite E|]; exact IH.
Qed.

(** X8. Rows whose empathy type is not one of affective, cognitive and
    motivational never change the outcome: without them [analyze_data]
    returns the same records, for the same listing of attribute types. *)
Theorem analyze_data_ignores_other_types (attrs : list string) (data : list scored_row) :
  analyze_data_in attrs (filter known_type data) = analyze_data_in attrs data.
Proof.
  unfold analyze_data_in. apply for_each_ext.
  intros results e He. unfold analyze_type.
  fold (type_rows (filter known_type data) e) (type_rows data e).
  now rewrite type_rows_known.
Qed.

(** * Further properties of [load_data] *)

(** ** Dictionaries: lookup after update *)

Lemma dict_get_set_same (d : dict) (key : string) (v : value) :
  dict_get (dict_set d key v) key = Return v.
Proof.
  induction d as [|[k v0] d IH]; simpl.
  - now rewrite String.eqb_refl.
  - destruct (String.eqb k key) eqn:E; simpl; rewrite E; [reflexivity | exact IH].
Qed.

Lemma dict_get_set_other (d : dict) (key key' : string) (v : value) :
  key' <> key -> dict_get (dict_set d key v) key' = dict_get d key'.
Proof.
  intros H. induction d as [|[k v0] d IH]; simpl.
  - apply String.eqb_neq in H. rewrite String.eqb_sym in H. now rewrite H.
  - destruct (String.eqb k key) eqn:E; simpl.
    + apply String.eqb_eq in E. subst k.
      apply String.eqb_neq in H. rewrite String.eqb_sym in H. now rewrite H.
    + destruct (String.eqb k key'); [reflexivity | exact IH].
Qed.

(** X10. When no row holds [None] under [empathy_score], [load_data] raises
    nothing and returns, in order, exactly the rows whose field parses as a
    number, with the field converted; rows whose text does not parse, and
    rows without the key, are dropped. *)
Theorem load_data_keeps_parsed_rows
        (parse_float : string -> option Q) (reader : list dict) :
  Forall field_not_None reader ->
  load_data parse_float reader = Return (flat_map (parsed_row parse_float) reader).
Proof.
  intros H. unfold load_data. now rewrite load_loop_spec.
Qed.

Lemma load_data_keeps_parsed_rows_witness :
  load_data parse_three_and_a_half (DictReader full_line_file)
  = Return (flat_map (parsed_row parse_three_and_a_half) (DictReader full_line_file)).
Proof.
  apply (load_data_keeps_parsed_rows parse_three_and_a_half
           (DictReader full_line_file)).
  repeat constructor; vm_compute; discriminate.
Defined.

(** ** What the loaded rows look like *)

Section LoadedRows.

Variable parse_float : string -> option Q.

Lemma load_row_cases (data : list dict) (row : dict) (data' : list dict) :
  load_row parse_float data row = Return data' ->
  data' = data \/ exists x, data' = data ++ [dict_set row "empathy_score" (Float x)].
Proof.
  unfold load_row.
  destruct (dict_get row "empathy_score") as [[s | | x] | e]; simpl.
  - destruct (parse_float s); simpl; intros H; injection H as <-; eauto.
  - discriminate.
  - intros H; injection H as <-; eauto.
  - destruct e; simpl; intros H; try discriminate; injection H as <-; auto.
Qed.

Lemma load_loop_rows (reader all : list dict) (data data' : list dict) :
  (forall row, In row reader -> In row all) ->
  Forall (loaded_from all) data ->
  for_each (load_row parse_float) reader data = Return data' ->
  Forall (loaded_from all) data'.
Proof.
  revert data. induction reader as [|row reader IH]; intros data Hin Hd; simpl.
  - intros H. injection H as <-. exact Hd.
  - destruct (load_row parse_float data row) as [d1 | e] eqn:E; simpl;
      [|discriminate].
    apply IH; [intros r Hr; apply Hin; now right|].
    apply load_row_cases in E. destruct E as [-> | [x ->]]; [exact Hd|].
    apply Forall_app. split; [exact Hd|]. constructor; [|constructor].
    exists row, x. split; [apply Hin; now left|]. split.
    + apply dict_get_set_same.
    + intros key Hk. now apply dict_get_set_other.
Qed.

End LoadedRows.

(** X11. Whenever [load_data] returns, every row it returns is a row of the
    input in which [empathy_score] now holds a float and every other column
    is unchanged. *)
Theorem load_data_rows_are_converted
        (parse_float : string -> option Q) (reader data : list dict) :
  load_data parse_float reader = Return data ->
  Forall (loaded_from reader) data.
Proof.
  unfold load_data. apply load_loop_rows; [auto | constructor].
Qed.

Lemma load_data_rows_are_converted_witness :
  Forall (loaded_from (DictReader full_line_file))
         (flat_map (parsed_row parse_three_and_a_half) (DictReader full_line_file)).
Proof.
  apply (load_data_rows_are_converted parse_three_and_a_half
           (DictReader full_line_file)).
  vm_compute. reflexivity.
Defined.

(** ** From the lines of the file *)









(** * Further properties of the derived score *)

(** X13. In every row that [calculate_new_empathy_score] returns, the new
    score is the sum of the three contribution columns minus the
    first-person penalty column. *)
Theorem new_score_is_sum_of_contributions (df : list liwc_row) :
  Forall (fun r =>
            new_empathy_score r ==
            second_person_contribution r + negative_emotion_contribution r
            + cognitive_insight_contribution r - first_person_penalty r)
         (calculate_new_empathy_score df).
Proof.
  unfold calculate_new_empathy_score.
  induction df as [|r df IH]; simpl; constructor; [|exact IH].
  simpl. unfold score_of. ring.
Qed.

(** * The tables *)

(** ** Lengths of texts *)

Lemma length_append (s t : string) :
  String.length (s ++ t) = (String.length s + String.length t)%nat.
Proof. induction s as [|c s IH]; simpl; [reflexivity | now rewrite IH]. Qed.

Lemma length_replicate (n : nat) (c : ascii) : String.length (replicate n c) = n.
Proof. induction n as [|n IH]; simpl; [reflexivity | now rewrite IH]. Qed.

Lemma str_len_ljust (s : string) (width : Z) :
  (str_len s <= width)%Z -> str_len (ljust s width) = width.
Proof.
  intros H. unfold ljust, str_len in *.
  rewrite length_append, length_replicate. lia.
Qed.

Lemma str_len_times (c : ascii) (n : Z) : (0 <= n)%Z -> str_len (times c n) = n.
Proof. intros H. unfold times, str_len. rewrite length_replicate. lia. Qed.

Lemma length_join (sep : string) (l l' : list string) :
  Forall2 (fun s s' => String.length s = String.length s') l l' ->
  String.length (join sep l) = String.length (join sep l').
Proof.
  induction 1 as [|s s' l l' Hs Hl IH]; [reflexivity|].
  destruct Hl as [|t t' l l' Ht Hl]; [exact Hs|].
  change (String.length (s ++ sep ++ join sep (t :: l))
          = String.length (s' ++ sep ++ join sep (t' :: l'))).
  rewrite !length_append, Hs, IH. reflexivity.
Qed.

(** ** [format_table_for_display] *)

Section TableFacts.

Variable V : Type.
Variable str : V -> string.

Lemma fold_max_ge_init (f : table_row V -> Z) (rows : list (table_row V)) (w : Z) :
  (w <= fold_left (fun width row => Z.max width (f row)) rows w)%Z.
Proof.
  revert w. induction rows as [|row rows IH]; intros w; simpl; [lia|].
  specialize (IH (Z.max w (f row))). lia.
Qed.

Lemma fold_max_ge_each (f : table_row V -> Z) (rows : list (table_row V)) (w : Z)
      (row : table_row V) :
  In row rows ->
  (f row <= fold_left (fun width row => Z.max width (f row)) rows w)%Z.
Proof.
  revert w. induction rows as [|r rows IH]; intros w; simpl; [intros []|].
  intros [-> | H].
  - pose proof (fold_max_ge_init f rows (Z.max w (f row))). lia.
  - now apply IH.
Qed.

Lemma col_width_header (data : list (table_row V)) (max_rows : Z) (header : string) :
  (str_len header <= col_width str data max_rows header)%Z.
Proof. unfold col_width. apply fold_max_ge_init. Qed.

Lemma col_width_cell (data : list (table_row V)) (max_rows : Z) (header : string)
      (row : table_row V) :
  In row (slice_to data max_rows) ->
  (str_len (text_at str row header) <= col_width str data max_rows header)%Z.
Proof.
  intros H. unfold col_width.
  apply (fold_max_ge_each (fun row => str_len (text_at str row header))). exact H.
Qed.

Lemma data_line_length (data : list (table_row V)) (headers : list string)
      (max_rows : Z) (row : table_row V) :
  In row (slice_to data max_rows) ->
  String.length (data_line str data headers max_rows row)
  = String.length (header_line str data headers max_rows).
Proof.
  intros H. unfold data_line, header_line. apply length_join.
  induction headers as [|header headers IH]; simpl; constructor; [|exact IH].
  apply Nat2Z.inj. fold (str_len (ljust (text_at str row header)
                                        (col_width str data max_rows header))).
  fold (str_len (ljust header (col_width str data max_rows header))).
  rewrite !str_len_ljust;
    [reflexivity | apply col_width_header | now apply col_width_cell].
Qed.

End TableFacts.

(** X15. The table that [format_table_for_display] draws is aligned: the
    rule under the header and the line of every row shown have exactly the
    length of the header line, whatever the texts of the cells and whatever
    [max_rows]. *)
Theorem table_is_aligned (V : Type) (str : V -> string)
        (data : list (table_row V)) (headers : list string) (max_rows : Z) :
  Forall (fun line => String.length line
                      = String.length (header_line str data headers max_rows))
         (table_lines str data headers max_rows).
Proof.
  unfold table_lines. constructor; [reflexivity|]. constructor.
  - apply Nat2Z.inj.
    fold (str_len (times "-" (str_len (header_line str data headers max_rows)))).
    rewrite str_len_times; [reflexivity | unfold str_len; lia].
  - apply Forall_forall. intros line Hline.
    apply in_map_iff in Hline. destruct Hline as (row & <- & Hrow).
    now apply data_line_length.
Qed.

(** ** [save_csv_table] *)

Section CsvFacts.

Variable V : Type.
Variable empty_text : V.

Lemma row_get_set_same (row : table_row V) (key : string) (v : V) :
  row_get (row_set row key v) key = Some v.
Proof.
  induction row as [|[k v0] row IH]; simpl.
  - now rewrite String.eqb_refl.
  - destruct (String.eqb k key) eqn:E; simpl; rewrite E; [reflexivity | exact IH].
Qed.

Lemma row_get_set_other (row : table_row V) (key key' : string) (v : V) :
  key' <> key -> row_get (row_set row key v) key' = row_get row key'.
Proof.
  intros H. apply String.eqb_neq in H. rewrite String.eqb_sym in H.
  induction row as [|[k v0] row IH]; simpl.
  - now rewrite H.
  - destruct (String.eqb k key) eqn:E; simpl.
    + apply String.eqb_eq in E. subst k. now rewrite H.
    + destruct (String.eqb k key'); [reflexivity | exact IH].
Qed.

Lemma row_set_keys (row : table_row V) (key : string) (v : V) (k : string) :
  In k (map fst (row_set row key v)) -> k = key \/ In k (map fst row).
Proof.
  induction row as [|[k0 v0] row IH]; simpl.
  - intuition.
  - destruct (String.eqb k0 key); simpl; intuition.
Qed.

Lemma filtered_fold (row : table_row V) (headers : list string) (d : table_row V) :
  let d' := fold_left (fun d k => row_set d k (row_get_or_empty empty_text row k))
                      headers d in
  (forall k, In k (map fst d') -> In k (map fst d) \/ In k headers)
  /\ (forall k, In k headers ->
                row_get d' k = Some (row_get_or_empty empty_text row k)).
Proof.
  revert d. induction headers as [|h headers IH]; intros d; simpl.
  - split; [auto | intros k []].
  - destruct (IH (row_set d h (row_get_or_empty empty_text row h))) as [K G].
    split.
    + intros k Hk. apply K in Hk. destruct Hk as [Hk | Hk]; [|auto].
      apply row_set_keys in Hk. intuition.
    + intros k [-> | Hk]; [|now apply G].
      destruct (in_dec string_dec k headers) as [Hin | Hout]; [now apply G|].
      clear K G IH.
      assert (P : forall d0, row_get d0 k = Some (row_get_or_empty empty_text row k) ->
                  row_get (fold_left (fun d k => row_set d k
                                        (row_get_or_empty empty_text row k))
                                     headers d0) k
                  = Some (row_get_or_empty empty_text row k)).
      { induction headers as [|h headers IH]; intros d0 Hd0; simpl; [exact Hd0|].
        apply IH; [intros H; apply Hout; now right|].
        rewrite row_get_set_other; [exact Hd0|].
        intros ->. apply Hout. now left. }
      apply P, row_get_set_same.
Qed.

Lemma DictWriter_filtered_row (headers : list string) (row : table_row V) :
  DictWriter_row empty_text headers (filtered_row empty_text headers row)
  = Return (map (row_get_or_empty empty_text row) headers).
Proof.
  unfold DictWriter_row, filtered_row.
  destruct (filtered_fold row headers []) as [K G].
  set (d := fold_left (fun d k => row_set d k (row_get_or_empty empty_text row k))
                      headers []) in *.
  assert (E : existsb (fun k => negb (existsb (String.eqb k) headers)) (map fst d)
              = false).
  { destruct (existsb _ (map fst d)) eqn:Ex; [|reflexivity].
    apply existsb_exists in Ex. destruct Ex as (k & Hk & Hn).
    apply K in Hk. destruct Hk as [[] | Hk].
    assert (existsb (String.eqb k) headers = true).
    { apply existsb_exists. exists k. split; [exact Hk | apply String.eqb_refl]. }
    rewrite H in Hn. discriminate. }
  rewrite E. f_equal. apply map_ext_in. intros k Hk.
  unfold row_get_or_empty at 1. now rewrite (G k Hk).
Qed.

Lemma writerows_filtered (headers : list string) (data : list (table_row V))
      (written : list (list V)) :
  for_each (fun written rowdict =>
              cells <- DictWriter_row empty_text headers rowdict ;;
              Return (written ++ [cells]))
           (map (filtered_row empty_text headers) data) written
  = Return (written
            ++ map (fun row => map (row_get_or_empty empty_text row) headers) data).
Proof.
  revert written. induction data as [|row data IH]; intros written; simpl.
  - now rewrite app_nil_r.
  - rewrite DictWriter_filtered_row. simpl. rewrite IH.
    now rewrite <- app_assoc.
Qed.

End CsvFacts.

(** X16. [save_csv_table] never raises on the rows it is given, whatever
    keys they hold: it writes the header and, for every row in order, the
    value of each requested column, with the empty text where the row has
    no such key; keys outside the headers are left out. *)
Theorem save_csv_table_writes_requested_columns
        (V : Type) (empty_text : V)
        (data : list (table_row V)) (headers : list string) :
  save_csv_table empty_text data headers
  = Return (headers,
            map (fun row => map (row_get_or_empty empty_text row) headers) data).
Proof.
  unfold save_csv_table, writerows. now rewrite writerows_filtered.
Qed.

(** ** [create_significance_summary] *)

Lemma Zsum_map_add {A : Type} (f g : A -> Z) (l : list A) :
  Zsum (map (fun a => (f a + g a)%Z) l) = (Zsum (map f l) + Zsum (map g l))%Z.
Proof. induction l as [|a l IH]; simpl; [reflexivity | rewrite IH; lia]. Qed.

Lemma Zsum_map_ext {A : Type} (f g : A -> Z) (l : list A) :
  (forall a, In a l -> f a = g a) -> Zsum (map f l) = Zsum (map g l).
Proof.
  induction l as [|a l IH]; intros H; simpl; [reflexivity|].
  rewrite (H a) by (now left). rewrite IH; [reflexivity|].
  intros b Hb. apply H. now right.
Qed.

(** Among distinct labels exactly one is the label [k]. *)
Lemma one_label (types : list string) (k : string) (c : bool) :
  NoDup types -> In k types ->
  Zsum (map (fun t => if String.eqb k t && c then 1 else 0)%Z types)
  = (if c then 1 else 0)%Z.
Proof.
  induction 1 as [|t types Ht Hnd IH]; simpl; [intros []|].
  intros [-> | Hin].
  - rewrite String.eqb_refl. simpl.
    rewrite (Zsum_map_ext _ (fun _ => 0%Z)).
    + assert (Z0 : Zsum (map (fun _ : string => 0%Z) types) = 0%Z)
        by (clear; induction types; simpl; lia).
      rewrite Z0. destruct c; reflexivity.
    + intros t Hin. destruct (String.eqb k t) eqn:E; [|reflexivity].
      apply String.eqb_eq in E. subst. contradiction.
  - destruct (String.eqb k t) eqn:E.
    + apply String.eqb_eq in E. subst. contradiction.
    + simpl. now apply IH.
Qed.

Lemma counts_by_label (p : anova_record -> bool) (types : list string)
      (results : list anova_record) :
  NoDup types ->
  (forall r, In r results -> In (Empathy_Type r) types) ->
  Zsum (map (fun t => Py.len (filter p (filter (fun r => String.eqb (Empathy_Type r) t)
                                               results)))
            types)
  = Py.len (filter p results).
Proof.
  intros Hnd. induction results as [|r results IH]; intros Hin.
  - simpl. clear. induction types; simpl; [reflexivity | exact IHtypes].
  - rewrite (Zsum_map_ext _
      (fun t => ((if String.eqb (Empathy_Type r) t && p r then 1 else 0)
                 + Py.len (filter p (filter (fun r => String.eqb (Empathy_Type r) t)
                                            results)))%Z)).
    + rewrite Zsum_map_add, IH by (intros r' Hr'; apply Hin; now right).
      rewrite one_label; [|exact Hnd | apply Hin; now left].
      simpl. destruct (p r); [rewrite len_cons|]; lia.
    + intros t _. simpl.
      destruct (String.eqb (Empathy_Type r) t); simpl; [|reflexivity].
      destruct (p r); [rewrite len_cons|]; lia.
Qed.

Lemma filter_all {A : Type} (l : list A) : filter (fun _ => true) l = l.
Proof. induction l as [|a l IH]; simpl; [reflexivity | now rewrite IH]. Qed.

Lemma filter_len_le {A : Type} (p : A -> bool) (l : list A) :
  (Py.len (filter p l) <= Py.len l)%Z.
Proof. unfold Py.len. apply inj_le, filter_length_le. Qed.

(** X17. Whatever the order in which the set of empathy types is listed,
    the summary counts every result once: the [Total_Tests] of its rows add
    up to the number of results and the [Total_Significant] to the number of
    results whose marker is not "ns"; in each row [Total_Significant] is at
    most [Total_Tests], which is at least 1. *)
Theorem significance_summary_counts
        (types : list string) (results : list anova_record) :
  lists_result_types types results ->
  let rows := fst (create_significance_summary_in types results) in
  Zsum (map Total_Tests rows) = Py.len results
  /\ Zsum (map Total_Significant rows)
     = Py.len (filter (fun r => negb (is_ns r)) results)
  /\ Forall (fun row => (0 <= Total_Significant row <= Total_Tests row)%Z
                        /\ (1 <= Total_Tests row)%Z)
            rows.
Proof.
  intros [Hnd Hin]. simpl.
  assert (Hall : forall r, In r results -> In (Empathy_Type r) types)
    by (intros r Hr; apply Hin; now apply in_map).
  rewrite !map_map. simpl. split; [|split].
  - transitivity (Py.len (filter (fun _ : anova_record => true) results));
      [|now rewrite filter_all].
    rewrite <- (counts_by_label (fun _ => true) types results Hnd Hall).
    apply Zsum_map_ext. intros t _. now rewrite filter_all.
  - rewrite <- (counts_by_label (fun r => negb (is_ns r)) types results Hnd Hall).
    apply Zsum_map_ext. intros t _. now rewrite len_map.
  - apply Forall_forall. intros row Hrow.
    apply in_map_iff in Hrow. destruct Hrow as (t & <- & Ht). simpl.
    rewrite len_map.
    pose proof (filter_len_le (fun r => negb (is_ns r))
                  (filter (fun r => String.eqb (Empathy_Type r) t) results)).
    pose proof (len_nonneg (filter (fun r => negb (is_ns r))
                  (filter (fun r => String.eqb (Empathy_Type r) t) results))).
    split; [lia|].
    apply Hin, in_map_iff in Ht. destruct Ht as (r & Hr & Hrin).
    assert (Hf : In r (filter (fun r => String.eqb (Empathy_Type r) t) results)).
    { apply filter_In. split; [exact Hrin|]. rewrite Hr. apply String.eqb_refl. }
    destruct (filter (fun r => String.eqb (Empathy_Type r) t) results) as [|x l];
      [destruct Hf|].
    rewrite len_cons. pose proof (len_nonneg l). lia.
Qed.

Lemma significance_summary_counts_witness :
  let rows := fst (create_significance_summary sample_results) in
  Zsum (map Total_Tests rows) = Py.len sample_results
  /\ Zsum (map Total_Significant rows)
     = Py.len (filter (fun r => negb (is_ns r)) sample_results)
  /\ Forall (fun row => (0 <= Total_Significant row <= Total_Tests row)%Z
                        /\ (1 <= Total_Tests row)%Z)
            rows.
Proof.
  apply (significance_summary_counts
           (distinct (map Empathy_Type sample_results)) sample_results).
  split.
  - vm_compute. repeat constructor; simpl; intuition discriminate.
  - intros t. vm_compute. tauto.
Defined.

(** * The batch runner *)

Section BatchFacts.

Variable world : Type.
Variable path_exists : world -> string -> bool.
Variable subprocess_run : world -> string -> world * outcome.

Lemma batch_loop (l : list string) (st : batch world) :
  let st' := fold_left (batch_step path_exists subprocess_run) l st in
  map fst (printed st') = map fst (printed st) ++ l
  /\ (success_count st' - successes (printed st')
      = success_count st - successes (printed st))%Z.
Proof.
  revert st. induction l as [|script l IH]; intros st; simpl.
  - now rewrite app_nil_r.
  - destruct (IH (batch_step path_exists subprocess_run st script)) as [H1 H2].
    split.
    + rewrite H1. unfold batch_step, run_script.
      destruct (path_exists (now st) script); simpl.
      * destruct (subprocess_run (now st) script) as [w' []]; simpl;
          rewrite map_app, <- app_assoc; reflexivity.
      * rewrite map_app, <- app_assoc. reflexivity.
    + rewrite H2. unfold batch_step, run_script, successes.
      destruct (path_exists (now st) script); simpl.
      * destruct (subprocess_run (now st) script) as [w' []]; simpl;
          rewrite filter_app, len_app; simpl;
          repeat rewrite len_cons; repeat rewrite len_nil; lia.
      * rewrite filter_app, len_app. simpl. rewrite len_nil. lia.
Qed.

End BatchFacts.

(** X18. When the directory [output] exists or can be created, the batch
    returns, having reported on each of the four scripts exactly once and
    in the listed order, whatever the earlier scripts did: a missing file
    or a failed run does not stop the loop.  [success_count] is the number
    of scripts reported as run successfully and lies between 0 and
    [total_count], which is 4.  The batch raises only when [output] is
    missing and [os.makedirs] raises, with the exception of
    [os.makedirs]. *)
Theorem batch_reports_every_script
        (world : Type) (path_exists : world -> string -> bool)
        (makedirs : world -> string -> result world)
        (subprocess_run : world -> string -> world * outcome) (w : world) :
  match run_all_analysis_main path_exists makedirs subprocess_run w with
  | Return (st, total_count) =>
      (path_exists w "output"%string = true
       \/ exists w', makedirs w "output"%string = Return w')
      /\ map fst (printed st) = scripts
      /\ success_count st = successes (printed st)
      /\ (0 <= success_count st <= total_count)%Z
      /\ total_count = 4%Z
  | Raise e =>
      path_exists w "output"%string = false
      /\ makedirs w "output"%string = Raise e
  end.
Proof.
  unfold run_all_analysis_main.
  assert (Hloop : forall w0,
             let st := fold_left (batch_step path_exists subprocess_run) scripts
                                 (mkBatch w0 0 []) in
             map fst (printed st) = scripts
             /\ success_count st = successes (printed st)
             /\ (0 <= success_count st <= Py.len scripts)%Z
             /\ Py.len scripts = 4%Z).
  { intros w0.
    pose proof (batch_loop world path_exists subprocess_run scripts (mkBatch w0 0 []))
      as H.
    cbv zeta in *.
    set (st := fold_left (batch_step path_exists subprocess_run) scripts
                         (mkBatch w0 0 [])) in *.
    destruct H as [H1 H2].
    change (map fst (printed (mkBatch w0 0 [])) ++ scripts) with scripts in H1.
    change (success_count (mkBatch w0 0 []) - successes (printed (mkBatch w0 0 [])))%Z
      with 0%Z in H2.
    assert (Hs : success_count st = successes (printed st)) by lia.
    repeat split; auto.
    - rewrite Hs. unfold successes. apply len_nonneg.
    - rewrite Hs. unfold successes.
      pose proof (filter_len_le
                    (fun sr : string * report =>
                       match snd sr with Ran_successfully => true | _ => false end)
                    (printed st)) as Hle.
      assert (Hlen : Py.len (printed st) = Py.len scripts).
      { rewrite <- (len_map fst), H1. reflexivity. }
      rewrite Hlen in Hle. exact Hle. }
  destruct (path_exists w "output"%string) eqn:E; simpl.
  - split; [now left | apply Hloop].
  - destruct (makedirs w "output"%string) as [w' | e] eqn:M; simpl.
    + split; [right; now exists w' | apply Hloop].
    + split; reflexivity.
Qed.
